(** * self_stats.munger.content_analysis: a shallow embedding and its properties

    The development follows [src/self_stats/munger/content_analysis.py].
    Python values are modelled as follows.
    - [str] is [string]; one character stands for one code point below 256.
    - an exception is a value of [exn]; a call that may raise returns a
      [result].
    - a [pd.DataFrame] is an ordered association list from column names to
      columns of cells.
    - the file system is a finite map from paths to file contents, threaded
      through [main] together with the exception. *)

From Stdlib Require Import String Ascii List Arith Bool Lia.
From stdpp Require Import base option list strings gmap.

Import ListNotations.
Local Open Scope string_scope.
Local Open Scope list_scope.

(** ** Exceptions *)

Inductive exn : Type :=
  | KeyError (key : string)
  | AttributeError (attr : string)
  | ValueError (msg : string)
  | IndexError (msg : string)
  | NameError (name : string)
  | FileNotFoundError (path : string)
  | OSError (msg : string).

Inductive result (A : Type) : Type :=
  | Ok (a : A)
  | Raise (e : exn).

Arguments Ok {A} a.
Arguments Raise {A} e.

#[global] Instance result_ret : MRet result := fun A a => Ok a.

#[global] Instance result_bind : MBind result := fun A B k r =>
  match r with
  | Ok a => k a
  | Raise e => Raise e
  end.

Definition raises {A : Type} (r : result A) : Prop :=
  match r with
  | Ok _ => False
  | Raise _ => True
  end.

(** ** The [str] methods the module calls *)

Module Str.

(** [s.startswith(p)] *)
Fixpoint startswith (s p : string) {struct p} : bool :=
  match p with
  | EmptyString => true
  | String a p' =>
      match s with
      | EmptyString => false
      | String b s' => Ascii.eqb a b && startswith s' p'
      end
  end.

(** [s[n:]] *)
Fixpoint drop (n : nat) (s : string) : string :=
  match n with
  | O => s
  | S n' =>
      match s with
      | EmptyString => EmptyString
      | String _ s' => drop n' s'
      end
  end.

Fixpoint rev_onto (s acc : string) : string :=
  match s with
  | EmptyString => acc
  | String c s' => rev_onto s' (String c acc)
  end.

(** [s[::-1]] *)
Definition rev (s : string) : string := rev_onto s EmptyString.

(** [s.endswith(p)] *)
Definition endswith (s p : string) : bool := startswith (rev s) (rev p).

(** [s.replace(old, new, 1)]: the leftmost occurrence of [old] is replaced,
    and [s] is returned unchanged when there is none. *)
Fixpoint replace_first (old new s : string) : string :=
  if startswith s old then new ++ drop (String.length old) s
  else
    match s with
    | EmptyString => EmptyString
    | String c s' => String c (replace_first old new s')
    end.

(** [sub in s] *)
Fixpoint contains (sub s : string) : bool :=
  startswith s sub ||
  match s with
  | EmptyString => false
  | String _ s' => contains sub s'
  end.

(** [c.isspace()] for a code point below 256: the ASCII controls 9..13 and
    28..31, the space, NEXT LINE (133) and NO-BREAK SPACE (160). *)
Definition isspace (c : ascii) : bool :=
  let n := nat_of_ascii c in
  (((9 <=? n) && (n <=? 13)) || ((28 <=? n) && (n <=? 32))
   || (n =? 133) || (n =? 160))%nat.

(** [s.lstrip()] *)
Fixpoint lstrip (s : string) : string :=
  match s with
  | EmptyString => EmptyString
  | String c s' => if isspace c then lstrip s' else s
  end.

(** [s.rstrip()] *)
Definition rstrip (s : string) : string := rev (lstrip (rev s)).

(** [s.strip()] *)
Definition strip (s : string) : string := rstrip (lstrip s).

(** [c.lower()] for a code point below 256: A..Z and the Latin-1 capitals
    192..222 other than the multiplication sign 215 move up by 32. *)
Definition lower_char (c : ascii) : ascii :=
  let n := nat_of_ascii c in
  if (((65 <=? n) && (n <=? 90))
      || ((192 <=? n) && (n <=? 222) && negb (n =? 215)))%nat
  then ascii_of_nat (n + 32) else c.

(** [s.lower()] *)
Fixpoint lower (s : string) : string :=
  match s with
  | EmptyString => EmptyString
  | String c s' => String (lower_char c) (lower s')
  end.

(** every character of [s] is white space *)
Fixpoint all_space (s : string) : bool :=
  match s with
  | EmptyString => true
  | String c s' => isspace c && all_space s'
  end.


(** [s.partition(c)[0]]: what precedes the first [c], all of [s] if there
    is none *)
Fixpoint before (c : ascii) (s : string) : string :=
  match s with
  | EmptyString => EmptyString
  | String a s' => if Ascii.eqb a c then EmptyString else String a (before c s')
  end.

(** what precedes the first character accepted by [stop] *)
Fixpoint before_any (stop : ascii -> bool) (s : string) : string :=
  match s with
  | EmptyString => EmptyString
  | String a s' => if stop a then EmptyString else String a (before_any stop s')
  end.

(** [s.rpartition(c)[-1]]: what follows the last [c], all of [s] if there
    is none *)
Fixpoint after_last (c : ascii) (s : string) : string :=
  match s with
  | EmptyString => EmptyString
  | String a s' =>
      if contains (String c EmptyString) s' then after_last c s'
      else if Ascii.eqb a c then s' else s
  end.

(** [s.split(c)] for a one-character separator *)
Fixpoint split (c : ascii) (s : string) : list string :=
  match s with
  | EmptyString => [EmptyString]
  | String a s' =>
      if Ascii.eqb a c then EmptyString :: split c s'
      else
        match split c s' with
        | [] => [String a EmptyString]
        | w :: ws => String a w :: ws
        end
  end.

(** [sep.join(l)] *)
Fixpoint join (sep : string) (l : list string) : string :=
  match l with
  | [] => EmptyString
  | [w] => w
  | w :: ws => w ++ sep ++ join sep ws
  end.

(** [s] without the characters accepted by [del] *)
Fixpoint remove (del : ascii -> bool) (s : string) : string :=
  match s with
  | EmptyString => EmptyString
  | String a s' => if del a then remove del s' else String a (remove del s')
  end.

(** [s.lstrip(chars)] *)
Fixpoint lstrip_chars (chars : ascii -> bool) (s : string) : string :=
  match s with
  | EmptyString => EmptyString
  | String a s' => if chars a then lstrip_chars chars s' else s
  end.

(** [s.rstrip(chars)] *)
Definition rstrip_chars (chars : ascii -> bool) (s : string) : string :=
  rev (lstrip_chars chars (rev s)).

Fixpoint forallb (p : ascii -> bool) (s : string) : bool :=
  match s with
  | EmptyString => true
  | String a s' => p a && forallb p s'
  end.

(** [s.isascii()] *)
Definition isascii (s : string) : bool :=
  forallb (fun c => (nat_of_ascii c <? 128)%nat) s.

(** [s.find(sub)], [None] standing for -1 *)
Fixpoint find (sub s : string) : option nat :=
  if startswith s sub then Some 0
  else
    match s with
    | EmptyString => None
    | String _ s' => S <$> find sub s'
    end.

(** [s[:n]] *)
Fixpoint take (n : nat) (s : string) : string :=
  match n, s with
  | S n', String a s' => String a (take n' s')
  | _, _ => EmptyString
  end.

End Str.

(** ** Lists *)

(** [l[:n]] for [n >= 0] *)
Definition slice_to {A : Type} (n : nat) (l : list A) : list A := take n l.

(** [l[-n:]] for [n > 0] *)
Definition slice_last {A : Type} (n : nat) (l : list A) : list A :=
  drop (length l - n) l.

(** A list comprehension [[f x for x in l if cond x]] whose condition and
    head expression may raise: the elements are visited in order, the
    condition first. *)
Fixpoint comprehension {A B : Type}
    (cond : A -> result bool) (f : A -> result B) (l : list A)
  : result (list B) :=
  match l with
  | [] => Ok []
  | x :: l' =>
      b ← cond x;
      if (b : bool) then (y ← f x; ys ← comprehension cond f l'; Ok (y :: ys))
      else comprehension cond f l'
  end.

(** ** Data frames *)

Inductive cell : Type :=
  | CStr (s : string)
  | CInt (n : Z)
  | CNaN
  | CNone.

Definition DataFrame : Type := list (string * list cell).

(** [data[col]] *)
Fixpoint getitem (data : DataFrame) (col : string) : result (list cell) :=
  match data with
  | [] => Raise (KeyError col)
  | (name, values) :: data' =>
      if String.eqb name col then Ok values else getitem data' col
  end.

Definition has_column (data : DataFrame) (col : string) : bool :=
  existsb (fun p => String.eqb (fst p) col) data.

(** [s.startswith(p)] on a cell: only a [str] has the method *)
Definition cell_startswith (p : string) (c : cell) : result bool :=
  match c with
  | CStr s => Ok (Str.startswith s p)
  | _ => Raise (AttributeError "startswith")
  end.

(** [s.replace(old, "", 1)] on a cell *)
Definition cell_replace (old new : string) (c : cell) : result string :=
  match c with
  | CStr s => Ok (Str.replace_first old new s)
  | _ => Raise (AttributeError "replace")
  end.

(** ** Query and visit extraction *)

Definition extract_search_queries (data : DataFrame) : result (list string) :=
  col ← getitem data "Text Title";
  qs ← comprehension (cell_startswith "Searched")
         (cell_replace "Searched for " "") col;
  Ok (slice_to 1000 qs).

Definition extract_visited_sites (data : DataFrame) : result (list string) :=
  col ← getitem data "Text Title";
  vs ← comprehension (cell_startswith "Visited")
         (cell_replace "Visited " "") col;
  Ok (slice_last 100 vs).

(** ** Homepage normalisation: the title heuristic *)

(** [text.startswith(('http://', 'https://'))] *)
Definition is_url (text : string) : bool :=
  Str.startswith text "http://" || Str.startswith text "https://".

(** The pattern [r' \- | \| '] matches at the head of [s]: it is the
    alternation of the two literal separators, both three characters long. *)
Definition separator_here (s : string) : bool :=
  Str.startswith s " - " || Str.startswith s " | ".

(** [re.split(r' \- | \| ', text)]. The scan goes left to right; at a match
    the current piece is closed and the scan resumes after the separator
    ([skip] counts the characters of the separator still to pass over);
    [piece] holds the current piece, last character first. *)
Fixpoint re_split_scan (skip : nat) (piece : string) (s : string)
  : list string :=
  match s with
  | EmptyString => [Str.rev piece]
  | String c s' =>
      match skip with
      | S k => re_split_scan k piece s'
      | O =>
          if separator_here s
          then Str.rev piece :: re_split_scan 2 EmptyString s'
          else re_split_scan 0 (String c piece) s'
      end
  end.

Definition re_split (text : string) : list string :=
  re_split_scan 0 EmptyString text.

(** [parts[-1]] of a list of strings; [re.split] never returns an empty
    list, so the default is not reached from [extract_homepage_alt_form]. *)
Definition last_part (parts : list string) : string :=
  List.last parts EmptyString.

Definition extract_homepage_alt_form (text : string) : option string :=
  let parts := re_split text in
  let result := Str.strip (last_part parts) in
  if Str.endswith result "..." || is_url result || (length parts =? 1)%nat
  then None
  else Some result.

(** ** Homepage normalisation: URLs *)

Definition char_in (chars : string) (c : ascii) : bool :=
  Str.contains (String c EmptyString) chars.

Definition is_ascii_alpha (c : ascii) : bool :=
  let n := nat_of_ascii c in
  (((65 <=? n) && (n <=? 90)) || ((97 <=? n) && (n <=? 122)))%nat.

Definition is_ascii_digit (c : ascii) : bool :=
  let n := nat_of_ascii c in ((48 <=? n) && (n <=? 57))%nat.

(** [urllib.parse.scheme_chars] *)
Definition scheme_char (c : ascii) : bool :=
  is_ascii_alpha c || is_ascii_digit c || char_in "+-." c.

(** A spaCy token, as far as the module reads it. *)
Record Token : Type := {
  text : string;
  is_stop : bool;
  is_punct : bool
}.

Definition Doc : Type := list Token.

(** A loaded spaCy pipeline: [pipe texts disable] is [nlp.pipe(texts,
    disable=disable)], run to its end. *)
Record Language : Type := {
  pipe : list string -> list string -> result (list Doc)
}.

(** The objects [main] would put in the tuples it returns: arrays and the
    objects bound to module-level names. *)
Inductive pyobj : Type :=
  | PArray (a : list cell)
  | PGlobal (name : string).

(** What the module needs of its third-party collaborators and of the
    interpreter, taken as parameters.
    - [bracketed_host_ok netloc]: the validation [urlsplit] applies to a
      network location that contains both square brackets (interpreters
      before 3.11.4 accept every one).
    - [nfkc s]: the code points of [unicodedata.normalize('NFKC', s)]; the
      normal form may leave the alphabet of [string].
    - [suffixes]: the public suffix list [tldextract] loads, one rule per
      entry ("com", "co.uk", "*.ck", "!www.ck").
    - [idna_decode]: [idna.decode], [None] when it raises.
    - [looks_like_ip], [looks_like_ipv6]: the address tests of [tldextract].
    - [spacy_load]: [spacy.load].
    - [csv_parse], [csv_render]: the reader behind [pd.read_csv] and the
      writer behind [DataFrame.to_csv], on file contents.
    - [py_call], [py_column]: calling an object and taking a column
      [a[:, k]] of it. *)
Record Library : Type := {
  bracketed_host_ok : string -> bool;
  nfkc : string -> list nat;
  suffixes : list string;
  idna_decode : string -> option string;
  looks_like_ip : string -> bool;
  looks_like_ipv6 : string -> bool;
  spacy_load : string -> result Language;
  csv_parse : string -> result DataFrame;
  csv_render : DataFrame -> string;
  py_call : pyobj -> list pyobj -> result pyobj;
  py_column : pyobj -> nat -> result pyobj
}.

Record ParseResult : Type := {
  scheme : string;
  netloc : string;
  path_query_fragment : string
}.

(** The scheme [urlsplit] recognises at the head of [url], lowered, and the
    rest of the string. *)
Definition split_scheme (url : string) : string * string :=
  let head := Str.before ":" url in
  match url with
  | String c _ =>
      if Str.contains ":" url && is_ascii_alpha c
         && Str.forallb scheme_char head
      then (Str.lower head, Str.drop (S (String.length head)) url)
      else (EmptyString, url)
  | EmptyString => (EmptyString, url)
  end.

(** [_WHATWG_C0_CONTROL_OR_SPACE]: the controls and the space. *)
Definition c0_control_or_space (c : ascii) : bool :=
  (nat_of_ascii c <=? 32)%nat.

(** [_UNSAFE_URL_BYTES_TO_REMOVE]: tab, line feed and carriage return. *)
Definition unsafe_url_byte (c : ascii) : bool :=
  ((nat_of_ascii c =? 9) || (nat_of_ascii c =? 10) || (nat_of_ascii c =? 13))%nat.

(** The code points of a string. *)
Definition code_points (s : string) : list nat :=
  map nat_of_ascii (list_ascii_of_string s).

(** The two tests [urlsplit] makes on the square brackets of a network
    location. *)
Definition check_brackets (L : Library) (netloc : string) : result unit :=
  let lb := Str.contains "[" netloc in
  let rb := Str.contains "]" netloc in
  if xorb lb rb then Raise (ValueError "Invalid IPv6 URL")
  else if lb && rb && negb (bracketed_host_ok L netloc)
  then Raise (ValueError "Invalid bracketed host")
  else Ok tt.

(** [_checknetloc(netloc)]: nothing is checked on an empty or ASCII network
    location; otherwise "@", ":", "#" and "?" are taken out, and the network
    location is refused when the NFKC normal form of what is left differs
    from it and holds one of "/", "?", "#", "@" and ":". *)
Definition checknetloc (L : Library) (netloc : string) : result unit :=
  if String.eqb netloc "" || Str.isascii netloc then Ok tt
  else
    let n := Str.remove (char_in "@:#?") netloc in
    let netloc2 := nfkc L n in
    if bool_decide (code_points n = netloc2) then Ok tt
    else if existsb (fun c => existsb (Nat.eqb c) netloc2)
                    (code_points "/?#@:")
    then Raise (ValueError ("netloc '" ++ netloc
                            ++ "' contains invalid characters under NFKC normalization"))
    else Ok tt.

(** [urlparse(url)] as far as the scheme and the network location: leading
    controls and spaces are stripped, tabs and line breaks removed, the
    scheme split off, and after "//" the network location runs to the first
    of "/", "?" and "#". The network location is tested for its square
    brackets where it is split off and by [_checknetloc] at the end; each
    test raises [ValueError]. *)
Definition urlparse (L : Library) (url : string) : result ParseResult :=
  let url := Str.lstrip_chars c0_control_or_space url in
  let url := Str.remove unsafe_url_byte url in
  let '(sch, rest) := split_scheme url in
  '(nl, rest') ←
    (if Str.startswith rest "//" then
       let nl := Str.before_any (char_in "/?#") (Str.drop 2 rest) in
       _ ← check_brackets L nl;
       Ok (nl, Str.drop (2 + String.length nl) rest)
     else Ok (EmptyString, rest));
  _ ← checknetloc L nl;
  Ok {| scheme := sch; netloc := nl; path_query_fragment := rest' |}.

(** *** tldextract *)

Record ExtractResult : Type := {
  subdomain : string;
  domain : string;
  suffix : string
}.

(** [_schemeless_url]: a leading "//" or "scheme://" is dropped. *)
Definition schemeless_url (url : string) : string :=
  match Str.find "//" url with
  | Some 0 => Str.drop 2 url
  | Some (S k) =>
      if (S k <? 2)%nat
         || negb (Str.startswith (Str.drop k url) ":")
         || negb (Str.forallb scheme_char (Str.take k url))
      then url
      else Str.drop (S k + 2) url
  | None => url
  end.

(** [lenient_netloc]: the host of the string, without user information,
    port or trailing dots; a bracketed address is kept with its brackets. *)
Definition lenient_netloc (url : string) : string :=
  let after_userinfo :=
    Str.after_last "@"
      (Str.before "#" (Str.before "?" (Str.before "/" (schemeless_url url)))) in
  if Str.startswith after_userinfo "[" && Str.contains "]" after_userinfo
  then (Str.before "]" after_userinfo ++ "]")%string
  else Str.rstrip_chars (char_in ".") (Str.strip (Str.before ":" after_userinfo)).

(** [_decode_punycode]: the label lowered, and decoded when it carries the
    "xn--" prefix and decodes. *)
Definition decode_punycode (L : Library) (label : string) : string :=
  let lowered := Str.lower label in
  if Str.startswith lowered "xn--"
  then match idna_decode L lowered with
       | Some d => d
       | None => lowered
       end
  else lowered.

(** A node of the suffix trie: the rules that pass through it, each cut
    down to the labels still to read (rightmost label first). *)
Definition Trie : Type := list (list string).

Definition trie_root (L : Library) : Trie :=
  map (fun rule => List.rev (Str.split "." rule)) (suffixes L).

(** [label in node.matches] *)
Definition trie_has (node : Trie) (label : string) : bool :=
  existsb (fun rule =>
             match rule with
             | l :: _ => String.eqb l label
             | [] => false
             end) node.

(** [node.matches[label]] *)
Fixpoint trie_child (node : Trie) (label : string) : Trie :=
  match node with
  | [] => []
  | (l :: rule) :: node' =>
      if String.eqb l label then rule :: trie_child node' label
      else trie_child node' label
  | [] :: node' => trie_child node' label
  end.

(** [node.end] *)
Definition trie_end (node : Trie) : bool :=
  existsb (fun rule => match rule with [] => true | _ => false end) node.

(** The loop of [suffix_index] over the labels from the right: [i] is the
    index found so far, [j] the index of the label last matched. *)
Fixpoint suffix_walk (L : Library) (node : Trie) (labels : list string)
    (i j : nat) : nat :=
  match labels with
  | [] => i
  | label :: labels' =>
      let decoded := decode_punycode L label in
      if trie_has node decoded then
        let child := trie_child node decoded in
        suffix_walk L child labels' (if trie_end child then j - 1 else i) (j - 1)
      else if trie_has node "*" then
        if trie_has node ("!" ++ decoded)%string then j else j - 1
      else i
  end.

Definition suffix_index (L : Library) (labels : list string) : nat :=
  suffix_walk L (trie_root L) (List.rev labels) (length labels) (length labels).

(** [_extract_netloc] *)
Definition extract_netloc (L : Library) (host : string) : ExtractResult :=
  if (4 <=? String.length host)%nat && Str.startswith host "["
     && Str.endswith host "]"
     && looks_like_ipv6 L (Str.take (String.length host - 2) (Str.drop 1 host))
  then {| subdomain := ""; domain := host; suffix := "" |}
  else
    let labels := Str.split "." host in
    let k := suffix_index L labels in
    if (k =? length labels)%nat && (length labels =? 4)%nat && looks_like_ip L host
    then {| subdomain := ""; domain := host; suffix := "" |}
    else
      {| subdomain := if (2 <=? k)%nat then Str.join "." (take (k - 1) labels)
                      else "";
         domain := if (1 <=? k)%nat then nth (k - 1) labels "" else "";
         suffix := if (k =? length labels)%nat then ""
                   else Str.join "." (drop k labels) |}.

(** [tldextract.extract(url)] *)
Definition tldextract_extract (L : Library) (url : string) : ExtractResult :=
  extract_netloc L (lenient_netloc url).

(** *** The two branches together *)

(** The call of [print] writes to the standard output only; the standard
    output is not part of the model. *)
Definition extract_homepage_from_url (L : Library) (url : string)
  : result string :=
  parsed_url ← urlparse L url;
  let extracted := tldextract_extract L url in
  Ok (domain extracted ++ "." ++ suffix extracted)%string.

Definition extract_homepage_main (L : Library) (url : string)
  : result (option string) :=
  if negb (is_url url) then Ok (extract_homepage_alt_form url)
  else h ← extract_homepage_from_url L url; Ok (Some h).

(** ** Tokenisation *)

Definition keep_token (token : Token) : bool :=
  negb (is_stop token) && negb (is_punct token)
  && negb (String.eqb (Str.strip (text token)) "").

Definition doc_tokens (doc : Doc) : list string :=
  map (fun token => Str.lower (text token)) (List.filter keep_token doc).

Definition process_texts (texts : list string) (nlp : Language)
  : result (list string) :=
  docs ← pipe nlp texts ["parser"; "ner"];
  Ok (concat (map doc_tokens docs)).

(** ** Frequency counting *)

(** [collections.Counter]: a dict from element to count, in the order of
    first occurrence. *)
Definition CounterDict : Type := list (string * nat).

Fixpoint counter_add (key : string) (d : CounterDict) : CounterDict :=
  match d with
  | [] => [(key, 1)]
  | (k, n) :: d' =>
      if String.eqb k key then (k, S n) :: d' else (k, n) :: counter_add key d'
  end.

Definition Counter (elements : list string) : CounterDict :=
  fold_left (fun d key => counter_add key d) elements [].

Definition counter_get (d : CounterDict) (key : string) : option nat :=
  snd <$> List.find (fun p => String.eqb (fst p) key) d.

Definition counter_total (d : CounterDict) : nat :=
  list_sum (map snd d).

(** ** The pandas calls of [main] *)

#[global] Instance cell_eq_dec : EqDecision cell.
Proof. solve_decision. Defined.

(** [pd.DataFrame(data, columns=columns)] for a dict [data] whose values
    are scalars. The constructor looks each requested column up among the
    keys of the dict. A column found there is a scalar, and a frame of
    scalars without an index is refused; when none is found the frame has
    the requested columns and no row. *)
Definition pd_DataFrame_scalars (data : CounterDict) (columns : list string)
  : result DataFrame :=
  if existsb (fun c => bool_decide (is_Some (counter_get data c))) columns
  then Raise (ValueError "If using all scalar values, you must pass an index")
  else Ok (map (fun c => (c, [])) columns).

(** [pd.DataFrame(data)] for a dict of lists, given as its items. *)
Definition pd_DataFrame_lists (data : list (string * list cell))
  : result DataFrame :=
  match data with
  | [] => Ok []
  | (_, first) :: _ =>
      if forallb (fun p => (length (snd p) =? length first)%nat) data
      then Ok data
      else Raise (ValueError "All arrays must be of the same length")
  end.

Definition n_rows (df : DataFrame) : nat :=
  match df with
  | [] => 0
  | (_, values) :: _ => length values
  end.

(** the rows of a frame, each row a list of cells in column order *)
Definition rows (df : DataFrame) : list (list cell) :=
  map (fun i => map (fun p => nth i (snd p) CNaN) df) (seq 0 (n_rows df)).

Definition is_na (c : cell) : bool :=
  match c with
  | CNaN | CNone => true
  | _ => false
  end.

(** A series with a (multi-)index: level names, then one entry per index
    tuple with its value. *)
Record Series : Type := {
  index_names : list string;
  entries : list (list cell * nat);
  series_name : string
}.

Fixpoint count_row (row : list cell) (acc : list (list cell * nat))
  : list (list cell * nat) :=
  match acc with
  | [] => [(row, 1)]
  | (r, n) :: acc' =>
      if bool_decide (r = row) then (r, S n) :: acc'
      else (r, n) :: count_row row acc'
  end.

(** insertion into a list ordered by count, largest first *)
Fixpoint insert_desc {A : Type} (x : A * nat) (l : list (A * nat))
  : list (A * nat) :=
  match l with
  | [] => [x]
  | y :: l' => if (snd y <? snd x)%nat then x :: l else y :: insert_desc x l'
  end.

Definition sort_desc {A : Type} (l : list (A * nat)) : list (A * nat) :=
  fold_right insert_desc [] l.

(** [df.value_counts()]: the distinct rows without missing value, each with
    its number of occurrences, largest first; the index levels are named
    after the columns. *)
Definition value_counts (df : DataFrame) : Series :=
  {| index_names := map fst df;
     entries :=
       sort_desc
         (fold_left (fun acc row => count_row row acc)
            (List.filter (fun row => negb (existsb is_na row)) (rows df)) []);
     series_name := "count" |}.

(** [frame.insert(0, name, values)] *)
Definition frame_insert_front (frame : DataFrame) (name : string)
    (values : list cell) : result DataFrame :=
  if has_column frame name
  then Raise (ValueError ("cannot insert " ++ name ++ ", already exists"))%string
  else Ok ((name, values) :: frame).

(** the index levels go in front of the frame, the last level first *)
Fixpoint insert_levels (levels : list (string * list cell)) (frame : DataFrame)
  : result DataFrame :=
  match levels with
  | [] => Ok frame
  | (name, values) :: levels' =>
      frame' ← frame_insert_front frame name values;
      insert_levels levels' frame'
  end.

(** [series.reset_index(name=name)]: the values become the column [name]
    and every index level a column of its own. *)
Definition reset_index (s : Series) (name : string) : result DataFrame :=
  let values := map (fun e => CInt (Z.of_nat (snd e))) (entries s) in
  let levels :=
    imap (fun j lname => (lname, map (fun e => nth j (fst e) CNaN) (entries s)))
      (index_names s) in
  insert_levels (List.rev levels) [(name, values)].

Definition cell_count (c : cell) : nat :=
  match c with
  | CInt n => Z.to_nat n
  | _ => 0
  end.

(** [df.sort_values(by=by, ascending=False)] for a column of counts, which
    is the only kind of column [main] sorts by. *)
Definition sort_values_desc (df : DataFrame) (by_ : string) : result DataFrame :=
  keys ← getitem df by_;
  let order := map fst (sort_desc (imap (fun i c => (i, cell_count c)) keys)) in
  Ok (map (fun p => (fst p, map (fun i => nth i (snd p) CNaN) order)) df).

(** Lines 129 to 131 of [main]: the table of token frequencies. *)
Definition token_frequency_table (cleaned_tokens : list string)
  : result DataFrame :=
  let counted_tokens := Counter cleaned_tokens in
  frame ← pd_DataFrame_scalars counted_tokens ["token"; "frequency"];
  token_frequency ← reset_index (value_counts frame) "frequency";
  sort_values_desc token_frequency "frequency".

(** the frequencies listed in a table *)
Definition frequencies (table : DataFrame) : list nat :=
  match getitem table "frequency" with
  | Ok values => map cell_count values
  | Raise _ => []
  end.

(** ** Name lookup *)

(** The names bound at module level: the imports and the functions. *)
Definition module_globals : list string :=
  ["List"; "Tuple"; "Dict"; "Any"; "Counter"; "re"; "urlparse"; "pd"; "spacy";
   "tldextract"; "np"; "extract_search_queries"; "extract_visited_sites";
   "process_texts"; "extract_homepage_main"; "extract_homepage_from_url";
   "is_url"; "extract_homepage_alt_form"; "main"].

(** The functions and constants of the [builtins] module. *)
Definition builtin_names : list string :=
  ["abs"; "aiter"; "all"; "anext"; "any"; "ascii"; "bin"; "bool";
   "breakpoint"; "bytearray"; "bytes"; "callable"; "chr"; "classmethod";
   "compile"; "complex"; "copyright"; "credits"; "delattr"; "dict"; "dir";
   "divmod"; "enumerate"; "eval"; "exec"; "exit"; "filter"; "float";
   "format"; "frozenset"; "getattr"; "globals"; "hasattr"; "hash"; "help";
   "hex"; "id"; "input"; "int"; "isinstance"; "issubclass"; "iter"; "len";
   "license"; "list"; "locals"; "map"; "max"; "memoryview"; "min"; "next";
   "object"; "oct"; "open"; "ord"; "pow"; "print"; "property"; "quit";
   "range"; "repr"; "reversed"; "round"; "set"; "setattr"; "slice";
   "sorted"; "staticmethod"; "str"; "sum"; "super"; "tuple"; "type"; "vars";
   "zip"; "__import__"; "__debug__"; "True"; "False"; "None"; "Ellipsis";
   "NotImplemented"].

(** The classes of the [builtins] module are the exceptions and warnings;
    their names end in one of these words. *)
Definition builtin_class_name (name : string) : bool :=
  existsb (Str.endswith name)
    ["Error"; "Exception"; "Warning"; "Exit"; "Interrupt"; "Iteration";
     "ExceptionGroup"].

(** Loading a name that is not local to the function: the module's
    globals are searched, then the builtins. *)
Definition load_global (name : string) : result pyobj :=
  if existsb (String.eqb name) module_globals
     || existsb (String.eqb name) builtin_names
     || builtin_class_name name
  then Ok (PGlobal name)
  else Raise (NameError name).

(** ** The entry point *)

(** A computation of [main]: it reads and writes files and may raise; what
    was written before an exception stays written. *)
Definition M (A : Type) : Type :=
  gmap string string -> result A * gmap string string.

#[global] Instance M_ret : MRet M := fun A a files => (Ok a, files).

#[global] Instance M_bind : MBind M := fun A B k m files =>
  match m files with
  | (Ok a, files') => k a files'
  | (Raise e, files') => (Raise e, files')
  end.

Definition lift {A : Type} (r : result A) : M A := fun files => (r, files).

(** [pd.read_csv(path)] *)
Definition read_csv (L : Library) (path : string) : M DataFrame :=
  fun files =>
    match files !! path with
    | Some content => (csv_parse L content, files)
    | None => (Raise (FileNotFoundError path), files)
    end.

(** [df.to_csv(path)]; the directory is the one [read_csv] has just read
    from, so the write goes through *)
Definition to_csv (L : Library) (df : DataFrame) (path : string) : M unit :=
  fun files => (Ok tt, <[path := csv_render L df]> files).

(** [l[i]] for [i >= 0] *)
Definition list_getitem {A : Type} (l : list A) (i : nat) : result A :=
  match l !! i with
  | Some x => Ok x
  | None => Raise (IndexError "index out of range")
  end.

(** [mappings[0] == 'Text Title'] *)
Definition first_is_text_title (mappings : list string) : result bool :=
  m ← list_getitem mappings 0;
  Ok (String.eqb m "Text Title").

(** [[f x for x in l]] where [f] may raise *)
Fixpoint comprehension_all {A B : Type} (f : A -> result B) (l : list A)
  : result (list B) :=
  match l with
  | [] => Ok []
  | x :: l' => y ← f x; ys ← comprehension_all f l'; Ok (y :: ys)
  end.

Definition homepage_cell (h : option string) : cell :=
  match h with
  | Some s => CStr s
  | None => CNone
  end.

(** [(windows[:, 1], windows[:, 0], window_durations, window_counts,
    counts_over_duration)] *)
Definition metadata_tuple (L : Library) : result (list pyobj) :=
  w1 ← load_global "windows";
  c1 ← py_column L w1 1;
  w0 ← load_global "windows";
  c0 ← py_column L w0 0;
  wd ← load_global "window_durations";
  wc ← load_global "window_counts";
  cd ← load_global "counts_over_duration";
  Ok [c1; c0; wd; wc; cd].

(** Lines 137 to 145: the branch on [search] and the return. *)
Definition final_branch (L : Library) (search : bool)
    (arr_data : list (list cell)) : result (list pyobj * list pyobj) :=
  if negb search then
    flag_short_videos ← load_global "flag_short_videos";
    d ← load_global "differences";
    short_flags ← py_call L flag_short_videos [d];
    d' ← load_global "differences";
    let imputed_arr := map PArray arr_data ++ [d'; short_flags] in
    metadata ← metadata_tuple L;
    Ok (imputed_arr, metadata)
  else
    d ← load_global "differences";
    let imputed_arr := map PArray arr_data ++ [d] in
    metadata ← metadata_tuple L;
    Ok (imputed_arr, metadata).

Definition dash_ready_search_data : string :=
  "personal_data/output/dash_ready_search_data.csv".
Definition visited_homepages : string :=
  "personal_data/output/visited_homepages.csv".
Definition search_token_frequency : string :=
  "personal_data/output/search_token_frequency.csv".

Definition main (L : Library) (arr_data : list (list cell))
    (mappings : list string) : M (list pyobj * list pyobj) :=
  nlp ← lift (spacy_load L "en_core_web_sm");
  text_index ← lift (b ← first_is_text_title mappings;
                     Ok (if (b : bool) then 0 else 1));
  date_index ← lift (b ← first_is_text_title mappings;
                     Ok (if (b : bool) then 1 else 3));
  search ← lift (first_is_text_title mappings);
  text_array ← lift (list_getitem arr_data text_index);
  date_array ← lift (list_getitem arr_data date_index);
  table ← read_csv L dash_ready_search_data;
  search_queries ← lift (extract_search_queries table);
  visited_sites ← lift (extract_visited_sites table);
  homepages ← lift (comprehension_all (extract_homepage_main L) visited_sites);
  cleaned_tokens ← lift (process_texts search_queries nlp);
  token_frequency ← lift (token_frequency_table cleaned_tokens);
  visited_data ← lift (pd_DataFrame_lists
                         [("visited", map CStr visited_sites);
                          ("homepage", map homepage_cell homepages)]);
  _ ← to_csv L visited_data visited_homepages;
  _ ← to_csv L token_frequency search_token_frequency;
  lift (final_branch L search arr_data).

(** What one run leaves behind: how it ended, and the contents of the two
    output files afterwards. *)
Definition outcome (L : Library) (arr_data : list (list cell))
    (mappings : list string) (files : gmap string string)
  : result (list pyobj * list pyobj) * option string * option string :=
  let '(r, files') := main L arr_data mappings files in
  (r, files' !! visited_homepages, files' !! search_token_frequency).

(** ** The statements of the specification, in its own words *)

(** [s.removeprefix(p)] *)
Definition removeprefix (p s : string) : string :=
  if Str.startswith s p then Str.drop (String.length p) s else s.

(** the entries whose title starts with [prefix], with that prefix
    stripped, in their original order *)
Definition qualifying (prefix : string) (titles : list string) : list string :=
  map (removeprefix prefix)
    (List.filter (fun s => Str.startswith s prefix) titles).

(** "keep the first 1000 matches in original order" *)
Definition spec_search_queries (titles : list string) : list string :=
  take 1000 (qualifying "Searched for " titles).

(** "the last 100 (by original order) qualifying entries" *)
Definition spec_visited_sites (titles : list string) : list string :=
  let matches := qualifying "Visited " titles in
  drop (length matches - 100) matches.

(** every title that starts with the first word also starts with the
    whole phrase *)
Definition word_means_phrase (word phrase : string) (titles : list string)
  : Prop :=
  Forall (fun s => Str.startswith s word = true ->
                   Str.startswith s phrase = true) titles.

(** the string holds one of the two separators *)
Definition has_separator (text : string) : bool :=
  Str.contains " - " text || Str.contains " | " text.

(** the character occurs nowhere in the string *)
Definition char_free (c : ascii) (s : string) : Prop :=
  Str.contains (String c EmptyString) s = false.

(** the string holds no square bracket *)
Definition bracket_free (s : string) : Prop :=
  Str.contains "[" s = false /\ Str.contains "]" s = false.

(** "{domain}.{suffix}" of the extraction *)
Definition registrable_domain (L : Library) (url : string) : string :=
  let extracted := tldextract_extract L url in
  (domain extracted ++ "." ++ suffix extracted)%string.





(** what may follow the host in an address: nothing, a path, a query or a
    fragment *)
Definition after_host (rest : string) : Prop :=
  rest = "" \/ exists c rest', rest = String c rest' /\ char_in "/?#" c = true.


(** a computation that ends in an exception from every file system *)
Definition never_returns {A : Type} (m : M A) : Prop :=
  forall files, raises (m files).1.

(** ** A library and a file system to run the definitions on *)

Definition sample_token (t : string) : Token :=
  {| text := t; is_stop := false; is_punct := false |}.

Definition sample_library : Library :=
  {| bracketed_host_ok := fun _ => true;
     nfkc := code_points;
     suffixes := ["com"; "uk"; "co.uk"; "*.ck"; "!www.ck"];
     idna_decode := fun _ => None;
     looks_like_ip := fun _ => false;
     looks_like_ipv6 := fun _ => false;
     spacy_load := fun _ =>
       Ok {| pipe := fun texts _ => Ok (map (fun t => [sample_token t]) texts) |};
     csv_parse := fun content => Ok [("Text Title", [CStr content])];
     csv_render := fun df => Str.join "," (map fst df);
     py_call := fun f _ => Ok f;
     py_column := fun a _ => Ok a |}.

Definition sample_files : gmap string string :=
  {[ dash_ready_search_data := "Searched for cats" ]}.

(** ** Further notions used by the properties *)

(** the cell is a [str] *)
Definition is_str_cell (c : cell) : bool :=
  match c with
  | CStr _ => true
  | _ => false
  end.

(** An entry of a well-formed history: a search or a visit. *)
Inductive HistoryEntry : Type :=
  | Searched (query : string)
  | Visited (site : string).

(** the title the export gives the entry *)
Definition entry_title (e : HistoryEntry) : string :=
  match e with
  | Searched query => "Searched for " ++ query
  | Visited site => "Visited " ++ site
  end.

(** the queries of a history, in order *)
Fixpoint history_queries (log : list HistoryEntry) : list string :=
  match log with
  | [] => []
  | Searched query :: log' => query :: history_queries log'
  | Visited _ :: log' => history_queries log'
  end.

(** the visited sites of a history, in order *)
Fixpoint history_visits (log : list HistoryEntry) : list string :=
  match log with
  | [] => []
  | Searched _ :: log' => history_visits log'
  | Visited site :: log' => site :: history_visits log'
  end.

(** the parts of a split put together again, with the separators that
    stood between them *)
Fixpoint unsplit (parts seps : list string) : string :=
  match parts with
  | [] => EmptyString
  | part :: parts' =>
      match seps with
      | [] => part
      | sep :: seps' => part ++ sep ++ unsplit parts' seps'
      end
  end.

(** one of the two separators of the title heuristic *)
Definition is_separator (sep : string) : Prop :=
  sep = " - " \/ sep = " | ".

(** how often [key] occurs in [l] *)
Definition occurrences (key : string) (l : list string) : nat :=
  length (List.filter (String.eqb key) l).

(** the number of tokens in a list of documents *)
Definition token_count (docs : list Doc) : nat :=
  list_sum (map (fun doc : Doc => length doc) docs).

(** a computation that leaves every file as it was *)
Definition leaves_files {A : Type} (m : M A) : Prop :=
  forall files, (m files).2 = files.

(** Lines 125 to 145 of [main]: what follows the reading of the cached
    file, given the pipeline and the value of [search]. *)
Definition main_from_table (L : Library) (nlp : Language) (search : bool)
    (arr_data : list (list cell)) (table : DataFrame)
  : M (list pyobj * list pyobj) :=
  search_queries ← lift (extract_search_queries table);
  visited_sites ← lift (extract_visited_sites table);
  homepages ← lift (comprehension_all (extract_homepage_main L) visited_sites);
  cleaned_tokens ← lift (process_texts search_queries nlp);
  token_frequency ← lift (token_frequency_table cleaned_tokens);
  visited_data ← lift (pd_DataFrame_lists
                         [("visited", map CStr visited_sites);
                          ("homepage", map homepage_cell homepages)]);
  _ ← to_csv L visited_data visited_homepages;
  _ ← to_csv L token_frequency search_token_frequency;
  lift (final_branch L search arr_data).

(** ** The orchestrator, [src/self_stats/munger/munger_main.py] *)

Module Munger.

(** The data the stages hand on: a tuple of arrays. *)
Definition Data : Type := list (list cell).

(** How a run of the orchestrator fails: an exception of one of the
    functions it calls or of an indexing, or the [UnboundLocalError] of a
    local variable read before any assignment. *)
Inductive failure : Type :=
  | Raised (e : exn)
  | UnboundLocalError (name : string).

Inductive outcome (A : Type) : Type :=
  | Done (a : A)
  | Failed (f : failure).

Arguments Done {A} a.
Arguments Failed {A} f.

(** What a run does that can be observed from outside, in order: the calls
    of the imported functions, the call of [mkdir], the lines printed. *)
Inductive Event : Type :=
  | EParse (directory input_file_name : string) (mappings : list string)
  | EMkdir (path : string)
  | EPrint (line : string)
  | ESave (data : Data) (path : string) (mappings : list string)
  | ETrim (data : Data) (mappings : list string)
  | EImpute (data : Data) (mappings : list string).

(** The functions the orchestrator imports and the file system it sees, as
    transformers of a world [W] of which nothing is assumed.
    [path_exists] is [Path(p).exists()], [mkdir] is
    [Path(p).mkdir(parents=True, exist_ok=True)] and [path_str] is
    [str(Path(p))]. *)
Record Collaborators (W : Type) : Type := {
  parse_and_process : string -> string -> list string -> W -> result Data * W;
  save_to_csv : Data -> string -> list string -> W -> result unit * W;
  trim_date : Data -> list string -> W -> result Data * W;
  imputer : Data -> list string -> W -> result Data * W;
  path_exists : string -> W -> bool;
  mkdir : string -> W -> result unit * W;
  path_str : string -> string
}.

Arguments parse_and_process {W} _ _ _ _ _.
Arguments save_to_csv {W} _ _ _ _ _.
Arguments trim_date {W} _ _ _ _.
Arguments imputer {W} _ _ _ _.
Arguments path_exists {W} _ _ _.
Arguments mkdir {W} _ _ _.
Arguments path_str {W} _ _.

(** A computation of the orchestrator: it transforms the world, adds to
    the events so far, and ends or fails. *)
Definition Run (W A : Type) : Type :=
  W * list Event -> outcome A * (W * list Event).

Definition ret {W A : Type} (a : A) : Run W A := fun st => (Done a, st).

Definition fail {W A : Type} (f : failure) : Run W A :=
  fun st => (Failed f, st).

Definition bind {W A B : Type} (m : Run W A) (k : A -> Run W B) : Run W B :=
  fun st =>
    match m st with
    | (Done a, st') => k a st'
    | (Failed f, st') => (Failed f, st')
    end.

Notation "x <~ m ; k" := (bind m (fun x => k))
  (at level 100, m at next level, right associativity, only parsing).

(** a call of an imported function: the event is recorded, the function
    runs on the world, and its exception, if any, ends the run *)
Definition call {W A : Type} (ev : Event) (f : W -> result A * W) : Run W A :=
  fun st =>
    match f (fst st) with
    | (Ok a, w') => (Done a, (w', snd st ++ [ev]))
    | (Raise e, w') => (Failed (Raised e), (w', snd st ++ [ev]))
    end.

(** [print(line)] *)
Definition print {W : Type} (line : string) : Run W unit :=
  fun st => (Done tt, (fst st, snd st ++ [EPrint line])).

(** reading a local variable that may not have been assigned *)
Definition load_local {W A : Type} (name : string) (value : option A)
  : Run W A :=
  match value with
  | Some a => ret a
  | None => fail (UnboundLocalError name)
  end.

(** The [if]/[elif] at the head of [main]: [data_source] is assigned in two
    of the three cases; [mappings[0]] is evaluated once for each test that
    is made. *)
Definition choose_data_source {W : Type} (mappings : list string)
  : Run W (option string) :=
  match list_getitem mappings 0 with
  | Raise e => fail (Raised e)
  | Ok m =>
      if String.eqb m "Text Title" then ret (Some "search")
      else
        match list_getitem mappings 0 with
        | Raise e => fail (Raised e)
        | Ok m' =>
            if String.eqb m' "Video URL" then ret (Some "watch") else ret None
        end
  end.

Definition extracted_path (directory data_source : string) : string :=
  directory ++ "/output/extracted_" ++ data_source ++ "_history.csv".

Definition dash_ready_path (directory data_source : string) : string :=
  directory ++ "/output/dash_ready_" ++ data_source ++ "_data.csv".

Definition imputed_path (directory data_source : string) : string :=
  directory ++ "/output/imputed_" ++ data_source ++ "_data.csv".

(** the path named by the message that follows the first save *)
Definition announced_extracted_path (directory data_source : string) : string :=
  directory ++ "/output/extracted_" ++ data_source ++ "_data.csv".

Definition main {W : Type} (C : Collaborators W)
    (directory input_file_name : string) (mappings : list string)
  : Run W unit :=
  data_source <~ choose_data_source mappings;
  cleaned_data <~ call (EParse directory input_file_name mappings)
                    (parse_and_process C directory input_file_name mappings);
  let out_dir := (directory ++ "/output")%string in
  _ <~ (fun st =>
          if path_exists C out_dir (fst st) then ret tt st
          else (_ <~ call (EMkdir out_dir) (mkdir C out_dir);
                print ("Directory created: " ++ path_str C out_dir
                       ++ String "010" "")%string) st);
  ds <~ load_local "data_source" data_source;
  _ <~ call (ESave cleaned_data (extracted_path directory ds) mappings)
         (save_to_csv C cleaned_data (extracted_path directory ds) mappings);
  ds <~ load_local "data_source" data_source;
  _ <~ print ("Search data extraction complete. Results saved to '"
              ++ announced_extracted_path directory ds ++ "'."
              ++ String "010" "")%string;
  dash_ready_data <~ call (ETrim cleaned_data mappings)
                       (trim_date C cleaned_data mappings);
  ds <~ load_local "data_source" data_source;
  _ <~ call (ESave dash_ready_data (dash_ready_path directory ds) mappings)
         (save_to_csv C dash_ready_data (dash_ready_path directory ds) mappings);
  ds <~ load_local "data_source" data_source;
  _ <~ print ("Data processing complete. Results saved to '"
              ++ dash_ready_path directory ds ++ "'."
              ++ String "010" "")%string;
  imputed_data <~ call (EImpute dash_ready_data mappings)
                    (imputer C dash_ready_data mappings);
  ds <~ load_local "data_source" data_source;
  _ <~ call (ESave imputed_data (imputed_path directory ds) mappings)
         (save_to_csv C imputed_data (imputed_path directory ds) mappings);
  ds <~ load_local "data_source" data_source;
  print ("Data processing complete. Results saved to '"
         ++ imputed_path directory ds ++ "'." ++ String "010" "")%string.

(** the paths handed to [save_to_csv], in the order of the calls *)
Fixpoint saved_paths (events : list Event) : list string :=
  match events with
  | [] => []
  | ESave _ path _ :: events' => path :: saved_paths events'
  | _ :: events' => saved_paths events'
  end.

(** the paths [mkdir] was called on, in the order of the calls *)
Fixpoint made_dirs (events : list Event) : list string :=
  match events with
  | [] => []
  | EMkdir path :: events' => path :: made_dirs events'
  | _ :: events' => made_dirs events'
  end.

(** A world for running the orchestrator: the set of the paths that exist. *)
Definition sample_collaborators : Collaborators (list string) :=
  {| parse_and_process := fun _ _ _ w => (Ok [[CStr "Searched for cats"]], w);
     save_to_csv := fun _ path _ w => (Ok tt, path :: w);
     trim_date := fun data _ w => (Ok data, w);
     imputer := fun data _ w => (Ok data, w);
     path_exists := fun path w => existsb (String.eqb path) w;
     mkdir := fun path w => (Ok tt, path :: w);
     path_str := fun path => path |}.

End Munger.

(** * Properties *)

(** ** Strings: concatenation and reversal *)

Lemma sapp_nil_r (s : string) : (s ++ "")%string = s.
Proof.
  induction s as [|c s IH]; [reflexivity|].
  change (String c (s ++ "")%string = String c s). f_equal. exact IH.
Qed.

Lemma sapp_assoc (a b c : string) :
  ((a ++ b) ++ c)%string = (a ++ (b ++ c))%string.
Proof.
  induction a as [|x a IH]; [reflexivity|].
  change (String x ((a ++ b) ++ c)%string = String x (a ++ (b ++ c))%string).
  f_equal. exact IH.
Qed.

Lemma slength_app (a b : string) :
  String.length (a ++ b) = String.length a + String.length b.
Proof.
  induction a as [|c a IH]; [reflexivity|].
  change (S (String.length (a ++ b)) = S (String.length a + String.length b)).
  rewrite IH. reflexivity.
Qed.

Lemma rev_onto_spec (s acc : string) :
  Str.rev_onto s acc = (Str.rev s ++ acc)%string.
Proof.
  unfold Str.rev. revert acc.
  induction s as [|c s IH]; intros acc; [reflexivity|]. simpl.
  rewrite (IH (String c acc)), (IH (String c "")), sapp_assoc. reflexivity.
Qed.

Lemma rev_cons (c : ascii) (s : string) :
  Str.rev (String c s) = (Str.rev s ++ String c "")%string.
Proof. unfold Str.rev at 1. simpl. apply rev_onto_spec. Qed.

Lemma rev_app (a b : string) :
  Str.rev (a ++ b) = (Str.rev b ++ Str.rev a)%string.
Proof.
  induction a as [|c a IH].
  - change (Str.rev b = (Str.rev b ++ "")%string). rewrite sapp_nil_r.
    reflexivity.
  - change (Str.rev (String c (a ++ b)%string)
            = (Str.rev b ++ Str.rev (String c a))%string).
    rewrite !rev_cons, IH, sapp_assoc. reflexivity.
Qed.

Lemma rev_involutive (s : string) : Str.rev (Str.rev s) = s.
Proof.
  induction s as [|c s IH]; [reflexivity|].
  rewrite rev_cons, rev_app, IH. reflexivity.
Qed.

Lemma rev_piece_step (c : ascii) (piece s : string) :
  (Str.rev (String c piece) ++ s)%string = (Str.rev piece ++ String c s)%string.
Proof. rewrite rev_cons, sapp_assoc. reflexivity. Qed.

(** ** Strings: prefixes and replacement *)

Lemma startswith_refl_app (p s : string) :
  Str.startswith (p ++ s) p = true.
Proof.
  induction p as [|a p IH]; simpl; [reflexivity|].
  rewrite Ascii.eqb_refl. exact IH.
Qed.

Lemma startswith_split (s p : string) :
  Str.startswith s p = true ->
  s = (p ++ Str.drop (String.length p) s)%string.
Proof.
  revert s. induction p as [|a p IH]; intros s H; simpl in *; [reflexivity|].
  destruct s as [|b s]; [discriminate|].
  apply andb_true_iff in H as [Hab Hs].
  apply Ascii.eqb_eq in Hab. subst b.
  change (String a s = String a (p ++ Str.drop (String.length p) s)%string).
  f_equal. apply IH, Hs.
Qed.

Lemma startswith_app_l (s p q : string) :
  Str.startswith s (p ++ q) = true -> Str.startswith s p = true.
Proof.
  revert s. induction p as [|a p IH]; intros s H; simpl in *; [reflexivity|].
  destruct s as [|b s]; [discriminate|].
  apply andb_true_iff in H as [Hab Hs].
  rewrite Hab. simpl. apply IH, Hs.
Qed.

Lemma replace_first_at_head (old new s : string) :
  Str.startswith s old = true ->
  Str.replace_first old new s = (new ++ Str.drop (String.length old) s)%string.
Proof.
  intros H. destruct s; simpl; rewrite H; reflexivity.
Qed.

Lemma replace_first_removeprefix (p s : string) :
  Str.startswith s p = true ->
  Str.replace_first p "" s = removeprefix p s.
Proof.
  intros H. rewrite replace_first_at_head by exact H.
  unfold removeprefix. rewrite H. reflexivity.
Qed.

(** the prefix really is in front of what [removeprefix] returns *)
Lemma removeprefix_correct (p s : string) :
  Str.startswith s p = true -> s = (p ++ removeprefix p s)%string.
Proof.
  intros H. unfold removeprefix. rewrite H. apply startswith_split, H.
Qed.

(** ** Query and visit extraction *)

Lemma comprehension_titles (word phrase : string) (titles : list string) :
  comprehension (cell_startswith word) (cell_replace phrase "")
    (map CStr titles)
  = Ok (map (Str.replace_first phrase "")
          (List.filter (fun s => Str.startswith s word) titles)).
Proof.
  induction titles as [|s titles IH]; simpl; [reflexivity|].
  unfold mbind, result_bind at 1. simpl.
  destruct (Str.startswith s word); simpl.
  - rewrite IH. reflexivity.
  - exact IH.
Qed.

Lemma matches_agree (word phrase : string) (titles : list string) :
  (forall s, Str.startswith s phrase = true -> Str.startswith s word = true) ->
  word_means_phrase word phrase titles ->
  map (Str.replace_first phrase "")
    (List.filter (fun s => Str.startswith s word) titles)
  = qualifying phrase titles.
Proof.
  intros Hpw Hall. unfold qualifying.
  induction Hall as [|s titles Hs _ IH]; simpl; [reflexivity|].
  destruct (Str.startswith s word) eqn:Ew.
  - rewrite (Hs eq_refl). simpl.
    rewrite replace_first_removeprefix by exact (Hs eq_refl).
    f_equal. exact IH.
  - destruct (Str.startswith s phrase) eqn:Ep.
    + rewrite (Hpw s Ep) in Ew. discriminate.
    + exact IH.
Qed.

Lemma searched_phrase_word (s : string) :
  Str.startswith s "Searched for " = true -> Str.startswith s "Searched" = true.
Proof. apply (startswith_app_l s "Searched" " for "). Qed.

Lemma visited_phrase_word (s : string) :
  Str.startswith s "Visited " = true -> Str.startswith s "Visited" = true.
Proof. apply (startswith_app_l s "Visited" " "). Qed.

Lemma extract_search_queries_eq (data : DataFrame) (titles : list string) :
  getitem data "Text Title" = Ok (map CStr titles) ->
  extract_search_queries data
  = Ok (take 1000 (map (Str.replace_first "Searched for " "")
                     (List.filter (fun s => Str.startswith s "Searched") titles))).
Proof.
  intros H. unfold extract_search_queries. rewrite H.
  unfold mbind, result_bind at 1. rewrite comprehension_titles. reflexivity.
Qed.

Lemma extract_visited_sites_eq (data : DataFrame) (titles : list string) :
  getitem data "Text Title" = Ok (map CStr titles) ->
  extract_visited_sites data
  = Ok (slice_last 100
          (map (Str.replace_first "Visited " "")
             (List.filter (fun s => Str.startswith s "Visited") titles))).
Proof.
  intros H. unfold extract_visited_sites. rewrite H.
  unfold mbind, result_bind at 1. rewrite comprehension_titles. reflexivity.
Qed.

(** C1, as the code has it. For every data frame whose 'Text Title' column
    holds the strings [titles], [extract_search_queries] returns a list of
    at most 1000 strings; and when every title that starts with "Searched"
    starts with "Searched for ", that list is exactly the entries whose
    title starts with "Searched for ", with the prefix stripped once, cut to
    the first 1000 in original order. *)
Theorem extract_search_queries_spec (data : DataFrame) (titles : list string) :
  getitem data "Text Title" = Ok (map CStr titles) ->
  exists qs,
    extract_search_queries data = Ok qs
    /\ length qs <= 1000
    /\ (word_means_phrase "Searched" "Searched for " titles ->
        qs = spec_search_queries titles).
Proof.
  intros H. eexists. split; [apply extract_search_queries_eq, H|]. split.
  - rewrite length_take. lia.
  - intros Hall. unfold spec_search_queries. f_equal.
    apply matches_agree; [exact searched_phrase_word | exact Hall].
Qed.

Lemma extract_search_queries_spec_witness :
  exists qs,
    extract_search_queries
      [("Text Title", map CStr ["Searched for cats"; "Visited x"; "Searched for dogs"])]
    = Ok qs
    /\ length qs <= 1000
    /\ qs = spec_search_queries
              ["Searched for cats"; "Visited x"; "Searched for dogs"].
Proof.
  destruct (extract_search_queries_spec
              [("Text Title", map CStr ["Searched for cats"; "Visited x"; "Searched for dogs"])]
              ["Searched for cats"; "Visited x"; "Searched for dogs"] eq_refl)
    as (qs & Hq & Hlen & Hspec).
  exists qs. split; [exact Hq|]. split; [exact Hlen|].
  apply Hspec. repeat constructor; simpl; intros E; solve [reflexivity | discriminate E].
Defined.

(** C1, as stated, fails on the titles "Searched" and "Searched for Searched
    for cats": the first is returned although it does not start with
    "Searched for ", and what is returned for the second still starts with
    "Searched for ". *)
Lemma extract_search_queries_counterexample :
  extract_search_queries
    [("Text Title", [CStr "Searched"; CStr "Searched for Searched for cats"])]
  = Ok ["Searched"; "Searched for cats"]
  /\ spec_search_queries ["Searched"; "Searched for Searched for cats"]
     = ["Searched for cats"]
  /\ Str.startswith "Searched for cats" "Searched for " = true.
Proof. repeat split. Qed.

(** C2, as the code has it. For every data frame whose 'Text Title' column
    holds the strings [titles], [extract_visited_sites] returns a list of at
    most 100 strings; and when every title that starts with "Visited"
    starts with "Visited ", that list is the last 100, in original order, of
    the entries whose title starts with "Visited ", with the prefix
    stripped. *)
Theorem extract_visited_sites_spec (data : DataFrame) (titles : list string) :
  getitem data "Text Title" = Ok (map CStr titles) ->
  exists vs,
    extract_visited_sites data = Ok vs
    /\ length vs <= 100
    /\ (word_means_phrase "Visited" "Visited " titles ->
        vs = spec_visited_sites titles).
Proof.
  intros H. eexists. split; [apply extract_visited_sites_eq, H|]. split.
  - unfold slice_last. rewrite length_drop. lia.
  - intros Hall. unfold spec_visited_sites, slice_last.
    rewrite (matches_agree "Visited" "Visited " titles visited_phrase_word Hall).
    reflexivity.
Qed.

Lemma extract_visited_sites_spec_witness :
  exists vs,
    extract_visited_sites
      [("Text Title", map CStr ["Visited a - b"; "Searched for x"; "Visited http://c.com"])]
    = Ok vs
    /\ length vs <= 100
    /\ vs = spec_visited_sites
              ["Visited a - b"; "Searched for x"; "Visited http://c.com"].
Proof.
  destruct (extract_visited_sites_spec
              [("Text Title", map CStr ["Visited a - b"; "Searched for x"; "Visited http://c.com"])]
              ["Visited a - b"; "Searched for x"; "Visited http://c.com"] eq_refl)
    as (vs & Hv & Hlen & Hspec).
  exists vs. split; [exact Hv|]. split; [exact Hlen|].
  apply Hspec. repeat constructor; simpl; intros E; solve [reflexivity | discriminate E].
Defined.

(** C2, as stated, fails on the titles "Visitedx" and "Visited-a Visited b":
    neither starts with "Visited ", both are returned, and the second loses
    the "Visited " in its middle. *)
Lemma extract_visited_sites_counterexample :
  extract_visited_sites
    [("Text Title", [CStr "Visitedx"; CStr "Visited-a Visited b"])]
  = Ok ["Visitedx"; "Visited-a b"]
  /\ spec_visited_sites ["Visitedx"; "Visited-a Visited b"] = [].
Proof. repeat split. Qed.

Lemma getitem_missing (data : DataFrame) (col : string) :
  has_column data col = false -> getitem data col = Raise (KeyError col).
Proof.
  induction data as [|[name values] data IH]; simpl; [reflexivity|].
  intros H. apply orb_false_iff in H as [Hn Hd].
  rewrite Hn. apply IH, Hd.
Qed.

(** C7. When the data frame has no 'Text Title' column, both extraction
    functions raise the [KeyError] of the column lookup, and so return
    nothing. *)
Theorem missing_column_raises (data : DataFrame) :
  has_column data "Text Title" = false ->
  extract_search_queries data = Raise (KeyError "Text Title")
  /\ extract_visited_sites data = Raise (KeyError "Text Title").
Proof.
  intros H. unfold extract_search_queries, extract_visited_sites.
  rewrite (getitem_missing _ _ H). split; reflexivity.
Qed.

Lemma missing_column_raises_witness :
  extract_search_queries [("Video URL", [CStr "Searched for cats"])]
  = Raise (KeyError "Text Title")
  /\ extract_visited_sites [("Video URL", [CStr "Searched for cats"])]
     = Raise (KeyError "Text Title").
Proof.
  apply (missing_column_raises [("Video URL", [CStr "Searched for cats"])]).
  reflexivity.
Defined.

(** ** The title heuristic *)

Lemma re_split_scan_skip (s : string) (k : nat) (piece : string) :
  re_split_scan k piece s = re_split_scan 0 piece (Str.drop k s).
Proof.
  revert k. induction s as [|c s IH]; intros k.
  - destruct k; reflexivity.
  - destruct k as [|k]; [reflexivity|]. exact (IH k).
Qed.

Lemma re_split_scan_step (c : ascii) (s piece : string) :
  re_split_scan 0 piece (String c s)
  = if separator_here (String c s)
    then Str.rev piece :: re_split_scan 2 EmptyString s
    else re_split_scan 0 (String c piece) s.
Proof. reflexivity. Qed.

Lemma re_split_scan_nonempty (s : string) (k : nat) (piece : string) :
  1 <= length (re_split_scan k piece s).
Proof.
  revert k piece. induction s as [|c s IH]; intros k piece.
  - simpl. lia.
  - destruct k as [|k]; [|exact (IH k piece)].
    rewrite re_split_scan_step. destruct (separator_here (String c s)).
    + simpl. lia.
    + apply IH.
Qed.

Lemma has_separator_cons (c : ascii) (s : string) :
  has_separator (String c s)
  = separator_here (String c s) || has_separator s.
Proof.
  unfold has_separator, separator_here.
  change (Str.contains " - " (String c s))
    with (Str.startswith (String c s) " - " || Str.contains " - " s).
  change (Str.contains " | " (String c s))
    with (Str.startswith (String c s) " | " || Str.contains " | " s).
  destruct (Str.startswith (String c s) " - "),
           (Str.startswith (String c s) " | "),
           (Str.contains " - " s), (Str.contains " | " s); reflexivity.
Qed.

(** [re.split] returns a single part exactly when the text holds no
    separator. *)
Lemma re_split_single (s piece : string) :
  (length (re_split_scan 0 piece s) =? 1)%nat = negb (has_separator s).
Proof.
  revert piece. induction s as [|c s IH]; intros piece; [reflexivity|].
  rewrite re_split_scan_step, has_separator_cons.
  destruct (separator_here (String c s)).
  - pose proof (re_split_scan_nonempty s 2 EmptyString) as Hn.
    cbn [length orb negb]. apply Nat.eqb_neq. lia.
  - cbn [orb]. apply IH.
Qed.

Lemma lstrip_all_space (s : string) :
  Str.all_space s = true -> Str.lstrip s = EmptyString.
Proof.
  induction s as [|c s IH]; simpl; [reflexivity|].
  intros H. apply andb_true_iff in H as [Hc Hs].
  rewrite Hc. apply IH, Hs.
Qed.

Lemma strip_all_space (s : string) :
  Str.all_space s = true -> Str.strip s = EmptyString.
Proof.
  intros H. unfold Str.strip. rewrite (lstrip_all_space s H). reflexivity.
Qed.

Lemma extract_homepage_main_title (L : Library) (text : string) :
  is_url text = false ->
  extract_homepage_main L text = Ok (extract_homepage_alt_form text).
Proof. intros H. unfold extract_homepage_main. rewrite H. reflexivity. Qed.

(** C4. For every string that does not start with "http://" or "https://",
    [extract_homepage_main] takes the last part of the split on " - " and
    " | ", trimmed; it returns [None] when the string holds no separator,
    when that segment starts with a web protocol or when it ends with
    "...", and the segment otherwise. The empty string gives [None], and
    "My Great Article - Example News" gives "Example News". *)
Theorem extract_homepage_title_spec (L : Library) :
  (forall text,
     is_url text = false ->
     let segment := Str.strip (last_part (re_split text)) in
     extract_homepage_main L text
     = Ok (if negb (has_separator text) || is_url segment
              || Str.endswith segment "..."
           then None else Some segment))
  /\ extract_homepage_main L "" = Ok None
  /\ extract_homepage_main L "My Great Article - Example News"
     = Ok (Some "Example News").
Proof.
  split; [|split; reflexivity].
  intros text H segment. rewrite (extract_homepage_main_title L text H).
  unfold extract_homepage_alt_form. fold segment.
  unfold re_split. rewrite re_split_single.
  destruct (Str.endswith segment "..."), (is_url segment),
           (has_separator text); reflexivity.
Qed.

Lemma extract_homepage_title_spec_witness :
  extract_homepage_main sample_library "Some Truncated Title | Example..."
  = Ok None
  /\ extract_homepage_main sample_library "SingleSegmentNoDelimiter" = Ok None
  /\ extract_homepage_main sample_library "Top stories - BBC News | Home "
     = Ok (Some "Home").
Proof.
  pose proof (extract_homepage_title_spec sample_library) as [H _].
  split; [|split].
  - rewrite (H "Some Truncated Title | Example..." eq_refl). reflexivity.
  - rewrite (H "SingleSegmentNoDelimiter" eq_refl). reflexivity.
  - rewrite (H "Top stories - BBC News | Home " eq_refl). reflexivity.
Defined.

(** C10. For every string that does not start with a web protocol, holds a
    separator, and whose last part consists of white space only (or of
    nothing), [extract_homepage_main] returns the empty string and not
    [None]; "Some Title - " is such a string. *)
Theorem extract_homepage_empty_segment (L : Library) (text : string) :
  is_url text = false ->
  has_separator text = true ->
  Str.all_space (last_part (re_split text)) = true ->
  extract_homepage_main L text = Ok (Some "").
Proof.
  intros Hurl Hsep Hspace. rewrite (extract_homepage_main_title L text Hurl).
  unfold extract_homepage_alt_form.
  rewrite (strip_all_space _ Hspace).
  unfold re_split. rewrite re_split_single, Hsep. reflexivity.
Qed.

Lemma extract_homepage_empty_segment_witness :
  extract_homepage_main sample_library "Some Title - " = Ok (Some "").
Proof.
  apply (extract_homepage_empty_segment sample_library "Some Title - ");
    reflexivity.
Defined.

(** ** URLs *)

Lemma contains_char_cons (c a : ascii) (s : string) :
  Str.contains (String c EmptyString) (String a s)
  = Ascii.eqb c a || Str.contains (String c EmptyString) s.
Proof. simpl. rewrite andb_true_r. reflexivity. Qed.

Section CharFree.
Variable c : ascii.

Lemma char_free_cons (a : ascii) (s : string) :
  char_free c (String a s) -> Ascii.eqb c a = false /\ char_free c s.
Proof.
  unfold char_free. rewrite contains_char_cons. apply orb_false_iff.
Qed.





End CharFree.

Section CharsAll.
Variable p : ascii -> bool.





End CharsAll.




(** On a string that starts with a web protocol, [extract_homepage_main]
    hands out what the URL branch computes and fails only where [urlparse]
    does. *)
Lemma extract_homepage_main_url (L : Library) (url : string) :
  is_url url = true ->
  extract_homepage_main L url
  = match urlparse L url with
    | Ok _ => Ok (Some (registrable_domain L url))
    | Raise e => Raise e
    end.
Proof.
  intros H. unfold extract_homepage_main, extract_homepage_from_url.
  rewrite H. cbn [negb]. destruct (urlparse L url); reflexivity.
Qed.




(** *** The suffix trie *)





(** *** Host names *)





















(** *** What [urlparse] does with an address *)

Lemma remove_app (del : ascii -> bool) (a b : string) :
  Str.remove del (a ++ b) = (Str.remove del a ++ Str.remove del b)%string.
Proof.
  induction a as [|c a IH]; [reflexivity|].
  change (Str.remove del (String c (a ++ b)%string)
          = (Str.remove del (String c a) ++ Str.remove del b)%string).
  simpl. rewrite IH. destruct (del c); reflexivity.
Qed.

Lemma before_any_stop (stop : ascii -> bool) (a : string) (c : ascii)
    (b : string) :
  stop c = true ->
  Str.before_any stop (a ++ String c b) = Str.before_any stop a.
Proof.
  intros Hc. induction a as [|x a IH].
  - simpl. rewrite Hc. reflexivity.
  - change (Str.before_any stop (String x (a ++ String c b)%string)
            = Str.before_any stop (String x a)).
    simpl. rewrite IH. reflexivity.
Qed.


(** After a web protocol, [urlparse] takes the network location from what
    follows and lets the two checks of it decide whether it raises. *)
Lemma urlparse_http (L : Library) (scheme s : string) :
  scheme = "http://" \/ scheme = "https://" ->
  urlparse L (scheme ++ s)
  = (let body := Str.remove unsafe_url_byte s in
     let nl := Str.before_any (char_in "/?#") body in
     _ ← check_brackets L nl;
     _ ← checknetloc L nl;
     Ok {| scheme := Str.before ":" scheme;
           netloc := nl;
           path_query_fragment := Str.drop (String.length nl) body |}).
Proof.
  intros Hs.
  transitivity
    (let body := Str.remove unsafe_url_byte s in
     let nl := Str.before_any (char_in "/?#") body in
     '(nl, rest') ← (_ ← check_brackets L nl;
                     Ok (nl, Str.drop (String.length nl) body));
     _ ← checknetloc L nl;
     Ok {| scheme := Str.before ":" scheme;
           netloc := nl; path_query_fragment := rest' |});
    [destruct Hs as [-> | ->]; reflexivity|].
  cbv zeta. destruct (check_brackets L _) as [[]|e]; reflexivity.
Qed.

(** the network location of an address: what stands between the protocol
    and the first "/", "?" or "#", tabs and line breaks apart *)
Lemma netloc_after_host (host rest : string) :
  after_host rest ->
  Str.before_any (char_in "/?#") (Str.remove unsafe_url_byte (host ++ rest))
  = Str.before_any (char_in "/?#") (Str.remove unsafe_url_byte host).
Proof.
  intros [->|(c & rest' & -> & Hc)]; [rewrite sapp_nil_r; reflexivity|].
  rewrite remove_app.
  assert (Hu : unsafe_url_byte c = false)
    by (destruct c as [[] [] [] [] [] [] [] []]; try discriminate Hc; reflexivity).
  simpl. rewrite Hu. apply before_any_stop, Hc.
Qed.


(** *** The walk through the suffix trie *)














(** ** Frequency counting *)

Lemma counter_total_add (key : string) (d : CounterDict) :
  counter_total (counter_add key d) = S (counter_total d).
Proof.
  unfold counter_total.
  induction d as [|[k n] d IH]; simpl; [reflexivity|].
  destruct (String.eqb k key); simpl; [reflexivity|].
  rewrite IH. lia.
Qed.

Lemma counter_total_fold (elements : list string) (d : CounterDict) :
  counter_total (fold_left (fun d key => counter_add key d) elements d)
  = counter_total d + length elements.
Proof.
  revert d. induction elements as [|key elements IH]; intros d; simpl.
  - lia.
  - rewrite IH, counter_total_add. lia.
Qed.

(** The counts of a [Counter] add up to the number of elements counted. *)
Lemma Counter_total (elements : list string) :
  counter_total (Counter elements) = length elements.
Proof. unfold Counter. rewrite counter_total_fold. reflexivity. Qed.

Lemma token_frequency_table_raises (cleaned_tokens : list string) :
  raises (token_frequency_table cleaned_tokens).
Proof.
  unfold token_frequency_table, pd_DataFrame_scalars.
  destruct (existsb _ _); exact I.
Qed.

(** C5, on the code. The counts of the [Counter] add up to the number of
    tokens, but the table is never built from them: for every token sequence
    the construction of lines 130 and 131 raises. On the tokens cat, dog,
    cat the frame made from the counter has no row, and [reset_index] then
    refuses the name "frequency", which the index already carries. *)
Theorem token_frequency_table_fails :
  (forall cleaned_tokens,
     counter_total (Counter cleaned_tokens) = length cleaned_tokens
     /\ raises (token_frequency_table cleaned_tokens))
  /\ Counter ["cat"; "dog"; "cat"] = [("cat", 2); ("dog", 1)]
  /\ pd_DataFrame_scalars (Counter ["cat"; "dog"; "cat"]) ["token"; "frequency"]
     = Ok [("token", []); ("frequency", [])]
  /\ token_frequency_table ["cat"; "dog"; "cat"]
     = Raise (ValueError "cannot insert frequency, already exists")
  /\ token_frequency_table ["token"; "dog"]
     = Raise (ValueError "If using all scalar values, you must pass an index").
Proof.
  split; [|repeat split].
  intros cleaned_tokens. split.
  - apply Counter_total.
  - apply token_frequency_table_raises.
Qed.

(** ** The entry point *)

Lemma bind_lift {A B : Type} (r : result A) (k : A -> M B)
    (files : gmap string string) :
  (lift r ≫= k) files
  = match r with
    | Ok a => k a files
    | Raise e => (Raise e, files)
    end.
Proof. destruct r; reflexivity. Qed.

Lemma final_branch_raises (L : Library) (search : bool)
    (arr_data : list (list cell)) :
  final_branch L search arr_data
  = Raise (NameError (if search then "differences" else "flag_short_videos")).
Proof. destruct search; reflexivity. Qed.

(** *** Runs that cannot return *)

Lemma never_returns_bind {A B : Type} (m : M A) (k : A -> M B) :
  (forall a, never_returns (k a)) -> never_returns (m ≫= k).
Proof.
  intros Hk files. unfold mbind, M_bind.
  destruct (m files) as [[a|e] files']; [apply Hk|exact I].
Qed.

Lemma main_never_returns (L : Library) (arr_data : list (list cell))
    (mappings : list string) :
  never_returns (main L arr_data mappings).
Proof.
  unfold main. repeat (apply never_returns_bind; intros ?).
  intros files. unfold lift. cbn [fst]. rewrite final_branch_raises. exact I.
Qed.

(** C6, as the code has it. No invocation of [main] returns: every one ends
    in an exception. The final branch raises a [NameError] wherever it is
    run, on [differences] when the first mapping is 'Text Title' and on
    [flag_short_videos] otherwise, since neither name is bound in the
    function, the module or the builtins. *)
Theorem main_always_raises (L : Library) (arr_data : list (list cell))
    (mappings : list string) (files : gmap string string) :
  raises (main L arr_data mappings files).1
  /\ (forall search : bool,
        final_branch L search arr_data
        = Raise (NameError (if search then "differences"
                            else "flag_short_videos")))
  /\ load_global "differences" = Raise (NameError "differences")
  /\ load_global "windows" = Raise (NameError "windows")
  /\ load_global "window_durations" = Raise (NameError "window_durations")
  /\ load_global "window_counts" = Raise (NameError "window_counts")
  /\ load_global "counts_over_duration"
     = Raise (NameError "counts_over_duration").
Proof.
  split; [apply main_never_returns|].
  split; [intros search; apply final_branch_raises|].
  repeat split.
Qed.

(** C6, as stated, fails on an empty list of mappings: the run ends in the
    [IndexError] of [mappings[0]], which is no name-lookup error, and it has
    written nothing. *)
Lemma main_always_raises_counterexample :
  main sample_library [[]; []] [] sample_files
  = (Raise (IndexError "index out of range"), sample_files).
Proof. reflexivity. Qed.

(** With the first mapping in place the run ends at the construction of the
    frequency table, before either output file is written. *)
Lemma main_sample_run :
  main sample_library [[]; []] ["Text Title"] sample_files
  = (Raise (ValueError "cannot insert frequency, already exists"),
     sample_files).
Proof. reflexivity. Qed.

(** *** What a run leaves behind *)

Lemma leaves_files_lift {A : Type} (r : result A) : leaves_files (lift r).
Proof. intros files. reflexivity. Qed.

Lemma leaves_files_read_csv (L : Library) (path : string) :
  leaves_files (read_csv L path).
Proof.
  intros files. unfold read_csv. destruct (files !! path); reflexivity.
Qed.

Lemma leaves_files_bind {A B : Type} (m : M A) (k : A -> M B) :
  leaves_files m -> (forall a, leaves_files (k a)) -> leaves_files (m ≫= k).
Proof.
  intros Hm Hk files. unfold mbind, M_bind. specialize (Hm files).
  destruct (m files) as [[a|e] files']; cbn [snd] in *; subst files';
    [apply Hk|reflexivity].
Qed.

Lemma leaves_files_cut {A B : Type} (r : result A) (k : A -> M B) :
  raises r -> leaves_files (lift r ≫= k).
Proof.
  intros Hr files. rewrite bind_lift. destruct r; [destruct Hr|reflexivity].
Qed.

Lemma main_leaves_files (L : Library) (arr_data : list (list cell))
    (mappings : list string) :
  leaves_files (main L arr_data mappings).
Proof.
  unfold main.
  repeat first
    [ apply leaves_files_cut; apply token_frequency_table_raises
    | apply leaves_files_bind;
      [first [apply leaves_files_lift | apply leaves_files_read_csv]
      |intros ?] ].
Qed.

(** C8, on the code. No run produces either output table: every run ends
    in an exception, and the two output paths hold afterwards what they held
    before, nothing on a fresh directory. So what the paths hold after a run
    is no function of the export and the cached file: two runs on the same
    arguments and the same cached file, one of them started with a stale
    [visited_homepages] in place, end in the same exception and leave
    different files. *)
Theorem main_outputs_not_produced :
  (forall (L : Library) (arr_data : list (list cell)) (mappings : list string)
          (files : gmap string string),
      exists r,
        raises r
        /\ outcome L arr_data mappings files
           = (r, files !! visited_homepages, files !! search_token_frequency))
  /\ outcome sample_library [[]; []] ["Text Title"] sample_files
     = (Raise (ValueError "cannot insert frequency, already exists"),
        None, None)
  /\ outcome sample_library [[]; []] ["Text Title"]
       (<[visited_homepages := "stale"]> sample_files)
     = (Raise (ValueError "cannot insert frequency, already exists"),
        Some "stale", None).
Proof.
  assert (Hall : forall (L : Library) (arr_data : list (list cell))
                        (mappings : list string) (files : gmap string string),
             exists r,
               raises r
               /\ outcome L arr_data mappings files
                  = (r, files !! visited_homepages,
                     files !! search_token_frequency)).
  { intros L arr_data mappings files. unfold outcome.
    pose proof (main_never_returns L arr_data mappings files) as Hr.
    pose proof (main_leaves_files L arr_data mappings files) as Hf.
    destruct (main L arr_data mappings files) as [r files']. cbn [fst snd] in *.
    subst files'. exists r. split; [exact Hr|reflexivity]. }
  split; [exact Hall|]. split; vm_compute; reflexivity.
Qed.

(** * Further properties of the code *)

(** ** Extraction *)

Lemma comprehension_non_str (word phrase : string) (col : list cell) :
  existsb (fun c => negb (is_str_cell c)) col = true ->
  comprehension (cell_startswith word) (cell_replace phrase "") col
  = Raise (AttributeError "startswith").
Proof.
  induction col as [|c col IH]; simpl; [discriminate|].
  destruct c as [s| | |]; simpl; try reflexivity.
  intros H. specialize (IH H). unfold mbind, result_bind at 1. simpl.
  destruct (Str.startswith s word); simpl; [|exact IH].
  rewrite IH. reflexivity.
Qed.

Lemma all_str_cells (col : list cell) :
  existsb (fun c => negb (is_str_cell c)) col = false ->
  exists titles, col = map CStr titles.
Proof.
  induction col as [|c col IH]; simpl; intros H.
  - exists []. reflexivity.
  - apply orb_false_iff in H as [Hc Hcol].
    destruct (IH Hcol) as [titles ->].
    destruct c as [s| | |]; try discriminate.
    exists (s :: titles). reflexivity.
Qed.

(** X1. A cell of the 'Text Title' column that is not a string (a missing
    value, a number) makes both extraction functions raise
    [AttributeError], whatever the other cells hold; and this is the only
    way they raise once the column is there. *)
Theorem extraction_non_string_cell (data : DataFrame) (col : list cell) :
  getitem data "Text Title" = Ok col ->
  (extract_search_queries data = Raise (AttributeError "startswith")
   <-> existsb (fun c => negb (is_str_cell c)) col = true)
  /\ (extract_visited_sites data = Raise (AttributeError "startswith")
      <-> existsb (fun c => negb (is_str_cell c)) col = true)
  /\ (existsb (fun c => negb (is_str_cell c)) col = false ->
      ~ raises (extract_search_queries data)
      /\ ~ raises (extract_visited_sites data)).
Proof.
  intros H.
  assert (Hbad : existsb (fun c => negb (is_str_cell c)) col = true ->
                 extract_search_queries data = Raise (AttributeError "startswith")
                 /\ extract_visited_sites data
                    = Raise (AttributeError "startswith")).
  { intros Hc. unfold extract_search_queries, extract_visited_sites.
    rewrite H. unfold mbind, result_bind at 1 3.
    rewrite !(comprehension_non_str _ _ col Hc). split; reflexivity. }
  assert (Hgood : existsb (fun c => negb (is_str_cell c)) col = false ->
                  ~ raises (extract_search_queries data)
                  /\ ~ raises (extract_visited_sites data)).
  { intros Hc. destruct (all_str_cells col Hc) as [titles ->].
    rewrite (extract_search_queries_eq data titles H).
    rewrite (extract_visited_sites_eq data titles H). split; intros []. }
  split; [|split; [|exact Hgood]].
  - split; [|intros Hc; apply Hbad, Hc].
    intros E. destruct (existsb _ col) eqn:Hc; [reflexivity|].
    destruct (Hgood eq_refl) as [Hs _]. rewrite E in Hs. destruct Hs. exact I.
  - split; [|intros Hc; apply Hbad, Hc].
    intros E. destruct (existsb _ col) eqn:Hc; [reflexivity|].
    destruct (Hgood eq_refl) as [_ Hv]. rewrite E in Hv. destruct Hv. exact I.
Qed.

Lemma extraction_non_string_cell_witness :
  extract_search_queries [("Text Title", [CStr "Searched for cats"; CNaN])]
  = Raise (AttributeError "startswith")
  /\ extract_visited_sites [("Text Title", [CStr "Searched for cats"; CNaN])]
     = Raise (AttributeError "startswith").
Proof.
  destruct (extraction_non_string_cell
              [("Text Title", [CStr "Searched for cats"; CNaN])]
              [CStr "Searched for cats"; CNaN] eq_refl) as (Hs & Hv & _).
  split; [apply Hs|apply Hv]; reflexivity.
Defined.

(** X2. [extract_search_queries] returns as many strings as there are
    titles that start with "Searched", up to 1000, and the i-th string
    returned comes from the i-th such title: nothing is reordered, and only
    titles past the first 1000 matching ones are left out. *)
Theorem search_queries_first_matches (data : DataFrame) (titles : list string) :
  getitem data "Text Title" = Ok (map CStr titles) ->
  let matching := List.filter (fun s => Str.startswith s "Searched") titles in
  exists qs,
    extract_search_queries data = Ok qs
    /\ length qs = Nat.min 1000 (length matching)
    /\ (forall i q, qs !! i = Some q ->
          exists t, matching !! i = Some t
                    /\ q = Str.replace_first "Searched for " "" t).
Proof.
  intros H matching. eexists. split; [apply extract_search_queries_eq, H|].
  fold matching. split.
  - rewrite length_take, length_map. reflexivity.
  - intros i q Hq. apply lookup_take_Some in Hq as [Hq _].
    change (map ?f matching) with (f <$> matching) in Hq.
    rewrite list_lookup_fmap in Hq.
    destruct (matching !! i) as [t|]; [|discriminate].
    exists t. split; [reflexivity|]. injection Hq as <-. reflexivity.
Qed.

Lemma search_queries_first_matches_witness :
  exists qs,
    extract_search_queries
      [("Text Title", map CStr ["Visited a"; "Searched for b"; "Searched c"])]
    = Ok qs
    /\ length qs = 2
    /\ qs !! 1 = Some "Searched c".
Proof.
  destruct (search_queries_first_matches
              [("Text Title", map CStr ["Visited a"; "Searched for b"; "Searched c"])]
              ["Visited a"; "Searched for b"; "Searched c"] eq_refl)
    as (qs & Hq & Hlen & _).
  exists qs. split; [exact Hq|]. split; [exact Hlen|].
  injection Hq as <-. reflexivity.
Defined.

(** X3. [extract_visited_sites] returns as many strings as there are titles
    that start with "Visited", up to 100, and they come from the last such
    titles in their order: with [n] matching titles, the i-th string
    returned comes from the matching title number [n - 100 + i]. *)
Theorem visited_sites_last_matches (data : DataFrame) (titles : list string) :
  getitem data "Text Title" = Ok (map CStr titles) ->
  let matching := List.filter (fun s => Str.startswith s "Visited") titles in
  exists vs,
    extract_visited_sites data = Ok vs
    /\ length vs = Nat.min 100 (length matching)
    /\ (forall i v, vs !! i = Some v ->
          exists t, matching !! (length matching - 100 + i) = Some t
                    /\ v = Str.replace_first "Visited " "" t).
Proof.
  intros H matching. eexists. split; [apply extract_visited_sites_eq, H|].
  fold matching. unfold slice_last. rewrite length_map. split.
  - rewrite length_drop, length_map. lia.
  - intros i v Hv. rewrite lookup_drop in Hv.
    change (map ?f matching) with (f <$> matching) in Hv.
    rewrite list_lookup_fmap in Hv.
    destruct (matching !! (length matching - 100 + i)) as [t|]; [|discriminate].
    exists t. split; [reflexivity|]. injection Hv as <-. reflexivity.
Qed.

Lemma visited_sites_last_matches_witness :
  exists vs,
    extract_visited_sites
      [("Text Title", map CStr ["Visited a"; "Searched for b"; "Visited c"])]
    = Ok vs
    /\ length vs = 2
    /\ vs !! 0 = Some "a".
Proof.
  destruct (visited_sites_last_matches
              [("Text Title", map CStr ["Visited a"; "Searched for b"; "Visited c"])]
              ["Visited a"; "Searched for b"; "Visited c"] eq_refl)
    as (vs & Hv & Hlen & _).
  exists vs. split; [exact Hv|]. split; [exact Hlen|].
  injection Hv as <-. reflexivity.
Defined.

Lemma history_queries_extracted (log : list HistoryEntry) :
  map (Str.replace_first "Searched for " "")
    (List.filter (fun s => Str.startswith s "Searched") (map entry_title log))
  = history_queries log.
Proof.
  induction log as [|[query|site] log IH]; [reflexivity| |].
  - change (map entry_title (Searched query :: log))
      with (("Searched for " ++ query)%string :: map entry_title log).
    cbn [List.filter].
    rewrite (searched_phrase_word _ (startswith_refl_app "Searched for " query)).
    cbn [map]. rewrite IH. reflexivity.
  - exact IH.
Qed.

Lemma history_visits_extracted (log : list HistoryEntry) :
  map (Str.replace_first "Visited " "")
    (List.filter (fun s => Str.startswith s "Visited") (map entry_title log))
  = history_visits log.
Proof.
  induction log as [|[query|site] log IH]; [reflexivity| |].
  - exact IH.
  - change (map entry_title (Visited site :: log))
      with (("Visited " ++ site)%string :: map entry_title log).
    cbn [List.filter].
    rewrite (visited_phrase_word _ (startswith_refl_app "Visited " site)).
    cbn [map]. rewrite IH. reflexivity.
Qed.

(** X4. On a well-formed history, where every title is "Searched for "
    followed by a query or "Visited " followed by a site, the two functions
    separate the entries exactly: the first gives back the queries as they
    were (the first 1000), the second the sites as they were (the last
    100), whatever the queries and sites contain. *)
Theorem history_separated (data : DataFrame) (log : list HistoryEntry) :
  getitem data "Text Title" = Ok (map CStr (map entry_title log)) ->
  extract_search_queries data = Ok (take 1000 (history_queries log))
  /\ extract_visited_sites data
     = Ok (drop (length (history_visits log) - 100) (history_visits log)).
Proof.
  intros H. split.
  - rewrite (extract_search_queries_eq data _ H), history_queries_extracted.
    reflexivity.
  - rewrite (extract_visited_sites_eq data _ H), history_visits_extracted.
    reflexivity.
Qed.

Lemma history_separated_witness :
  extract_search_queries
    [("Text Title",
      map CStr (map entry_title
                  [Searched "Visited Paris"; Visited "Searched for x";
                   Searched "Searched for cats"]))]
  = Ok ["Visited Paris"; "Searched for cats"]
  /\ extract_visited_sites
       [("Text Title",
         map CStr (map entry_title
                     [Searched "Visited Paris"; Visited "Searched for x";
                      Searched "Searched for cats"]))]
     = Ok ["Searched for x"].
Proof.
  apply (history_separated
           [("Text Title",
             map CStr (map entry_title
                         [Searched "Visited Paris"; Visited "Searched for x";
                          Searched "Searched for cats"]))]
           [Searched "Visited Paris"; Visited "Searched for x";
            Searched "Searched for cats"]).
  reflexivity.
Defined.

Lemma replace_first_absent (old new s : string) :
  Str.contains old s = false -> Str.replace_first old new s = s.
Proof.
  induction s as [|c s IH]; simpl; intros H;
    apply orb_false_iff in H as [Hs Hc]; rewrite Hs; [reflexivity|].
  f_equal. apply IH, Hc.
Qed.

Lemma map_unchanged (f : string -> string) (l : list string) :
  Forall (fun s => f s = s) l -> map f l = l.
Proof.
  induction 1 as [|s l Hs _ IH]; simpl; [reflexivity|]. rewrite Hs, IH.
  reflexivity.
Qed.

Lemma Forall_filter_keeps (P : string -> Prop) (p : string -> bool)
    (l : list string) :
  Forall P l -> Forall P (List.filter p l).
Proof.
  induction 1 as [|s l Hs _ IH]; simpl; [constructor|].
  destruct (p s); [constructor; assumption|assumption].
Qed.

(** X5. A title in which the phrase to strip does not occur is handed out
    as it is: when no title holds "Searched for ", [extract_search_queries]
    returns the titles that start with "Searched" unchanged, and likewise
    [extract_visited_sites] with "Visited " and "Visited". *)
Theorem extraction_without_phrase (data : DataFrame) (titles : list string) :
  getitem data "Text Title" = Ok (map CStr titles) ->
  (Forall (fun t => Str.contains "Searched for " t = false) titles ->
   extract_search_queries data
   = Ok (take 1000
           (List.filter (fun s => Str.startswith s "Searched") titles)))
  /\ (Forall (fun t => Str.contains "Visited " t = false) titles ->
      extract_visited_sites data
      = Ok (slice_last 100
              (List.filter (fun s => Str.startswith s "Visited") titles))).
Proof.
  intros H. split; intros Hall.
  - rewrite (extract_search_queries_eq data titles H). do 2 f_equal.
    apply map_unchanged, Forall_filter_keeps.
    eapply Forall_impl; [exact Hall|]. intros t. apply replace_first_absent.
  - rewrite (extract_visited_sites_eq data titles H). do 2 f_equal.
    apply map_unchanged, Forall_filter_keeps.
    eapply Forall_impl; [exact Hall|]. intros t. apply replace_first_absent.
Qed.

Lemma extraction_without_phrase_witness :
  extract_search_queries
    [("Text Title", map CStr ["Searched"; "Searchedfor x"; "Visitedx"])]
  = Ok ["Searched"; "Searchedfor x"]
  /\ extract_visited_sites
       [("Text Title", map CStr ["Searched"; "Searchedfor x"; "Visitedx"])]
     = Ok ["Visitedx"].
Proof.
  destruct (extraction_without_phrase
              [("Text Title", map CStr ["Searched"; "Searchedfor x"; "Visitedx"])]
              ["Searched"; "Searchedfor x"; "Visitedx"] eq_refl) as [Hs Hv].
  split.
  - rewrite Hs; [reflexivity|].
    repeat (constructor; [reflexivity|]). constructor.
  - rewrite Hv; [reflexivity|].
    repeat (constructor; [reflexivity|]). constructor.
Defined.

(** ** The split of the title heuristic loses nothing *)

Lemma separator_here_split (s : string) :
  separator_here s = true ->
  exists sep, is_separator sep /\ s = (sep ++ Str.drop 3 s)%string.
Proof.
  unfold separator_here. intros H. apply orb_true_iff in H as [H|H].
  - exists " - ". split; [left; reflexivity|].
    exact (startswith_split s " - " H).
  - exists " | ". split; [right; reflexivity|].
    exact (startswith_split s " | " H).
Qed.

Lemma re_split_scan_unsplit (s : string) (skip : nat) (piece : string) :
  exists seps,
    Forall is_separator seps
    /\ length (re_split_scan skip piece s) = S (length seps)
    /\ unsplit (re_split_scan skip piece s) seps
       = (Str.rev piece ++ Str.drop skip s)%string.
Proof.
  revert skip piece. induction s as [|c s IH]; intros skip piece.
  - exists []. split; [constructor|]. split; [reflexivity|].
    destruct skip; simpl; rewrite sapp_nil_r; reflexivity.
  - destruct skip as [|k]; [|exact (IH k piece)].
    rewrite re_split_scan_step.
    destruct (separator_here (String c s)) eqn:E.
    + destruct (IH 2 EmptyString) as (seps & Hseps & Hlen & Hun).
      destruct (separator_here_split _ E) as (sep & Hsep & Hs).
      exists (sep :: seps). split; [constructor; assumption|].
      split; [simpl; rewrite Hlen; reflexivity|].
      cbn [unsplit]. rewrite Hun.
      change (Str.rev "" ++ Str.drop 2 s)%string with (Str.drop 3 (String c s)).
      change (Str.drop 0 (String c s)) with (String c s).
      rewrite <- Hs. reflexivity.
    + destruct (IH 0 (String c piece)) as (seps & Hseps & Hlen & Hun).
      exists seps. split; [exact Hseps|]. split; [exact Hlen|].
      rewrite Hun. apply rev_piece_step.
Qed.

(** X6. [re.split] on the two separators loses nothing of the text: there
    is one separator fewer than there are parts, each of them " - " or
    " | ", and the parts with these separators between them are the text
    again. *)
Theorem re_split_unsplit (text : string) :
  exists seps,
    Forall is_separator seps
    /\ length (re_split text) = S (length seps)
    /\ unsplit (re_split text) seps = text.
Proof. exact (re_split_scan_unsplit text 0 EmptyString). Qed.

(** ** What the title heuristic returns *)

Lemma last_part_cons (part : string) (parts : list string) :
  1 <= length parts -> last_part (part :: parts) = last_part parts.
Proof. destruct parts; simpl; [lia|reflexivity]. Qed.

Lemma has_separator_tail (c : ascii) (s : string) :
  has_separator (String c s) = false -> has_separator s = false.
Proof.
  rewrite has_separator_cons. intros H. apply orb_false_iff in H. apply H.
Qed.

Lemma last_part_scan (s : string) (skip : nat) (piece : string) :
  (has_separator (Str.drop skip s) = false
   /\ last_part (re_split_scan skip piece s)
      = (Str.rev piece ++ Str.drop skip s)%string)
  \/ has_separator (last_part (re_split_scan skip piece s)) = false.
Proof.
  revert skip piece. induction s as [|c s IH]; intros skip piece.
  - left. destruct skip; (split; [reflexivity|]);
      simpl; rewrite sapp_nil_r; reflexivity.
  - destruct skip as [|k]; [|exact (IH k piece)].
    rewrite re_split_scan_step.
    destruct (separator_here (String c s)) eqn:E.
    + right. rewrite last_part_cons by apply re_split_scan_nonempty.
      destruct (IH 2 EmptyString) as [[Hno Hlast]|Hno]; [|exact Hno].
      rewrite Hlast. exact Hno.
    + destruct (IH 0 (String c piece)) as [[Hno Hlast]|Hno]; [left|right].
      * split.
        -- change (Str.drop 0 (String c s)) with (String c s).
           rewrite has_separator_cons, E. exact Hno.
        -- rewrite Hlast. apply rev_piece_step.
      * exact Hno.
Qed.

(** the last part of the split holds no separator *)
Lemma last_part_no_separator (text : string) :
  has_separator (last_part (re_split text)) = false.
Proof.
  destruct (last_part_scan text 0 EmptyString) as [[Hno Hlast]|Hno].
  - unfold re_split. rewrite Hlast. exact Hno.
  - exact Hno.
Qed.

Lemma startswith_app_r (s sub t : string) :
  Str.startswith s sub = true -> Str.startswith (s ++ t) sub = true.
Proof.
  revert s. induction sub as [|a sub IH]; intros s H; [reflexivity|].
  destruct s as [|b s]; [discriminate|].
  simpl in H. apply andb_true_iff in H as [Hab Hs].
  change (Ascii.eqb a b && Str.startswith (s ++ t) sub = true).
  rewrite Hab. apply IH, Hs.
Qed.

Lemma contains_app_l (sub s t : string) :
  Str.contains sub s = true -> Str.contains sub (s ++ t) = true.
Proof.
  induction s as [|c s IH]; intros H.
  - simpl in H. rewrite orb_false_r in H.
    destruct sub; [|discriminate]. destruct t; reflexivity.
  - change (Str.startswith (String c s) sub || Str.contains sub s = true) in H.
    change (Str.startswith (String c s ++ t) sub || Str.contains sub (s ++ t)
            = true).
    apply orb_true_iff in H as [H|H].
    + rewrite (startswith_app_r _ _ t H). reflexivity.
    + rewrite (IH H). apply orb_true_r.
Qed.

Lemma contains_app_r (sub s t : string) :
  Str.contains sub t = true -> Str.contains sub (s ++ t) = true.
Proof.
  intros H. induction s as [|c s IH]; [exact H|].
  change (Str.startswith (String c s ++ t) sub || Str.contains sub (s ++ t)
          = true).
  rewrite IH. apply orb_true_r.
Qed.

Lemma has_separator_prefix (s t : string) :
  has_separator (s ++ t) = false -> has_separator s = false.
Proof.
  unfold has_separator. intros H. apply orb_false_iff in H as [H1 H2].
  destruct (Str.contains " - " s) eqn:E1;
    [rewrite (contains_app_l _ _ t E1) in H1; discriminate|].
  destruct (Str.contains " | " s) eqn:E2;
    [rewrite (contains_app_l _ _ t E2) in H2; discriminate|].
  reflexivity.
Qed.

Lemma lstrip_suffix (s : string) :
  exists pre, s = (pre ++ Str.lstrip s)%string.
Proof.
  induction s as [|c s [pre IH]]; [exists ""; reflexivity|]. simpl.
  destruct (Str.isspace c).
  - exists (String c pre).
    change (String c s = String c (pre ++ Str.lstrip s)%string).
    f_equal. exact IH.
  - exists "". reflexivity.
Qed.

Lemma rstrip_prefix (s : string) :
  exists tail, s = (Str.rstrip s ++ tail)%string.
Proof.
  destruct (lstrip_suffix (Str.rev s)) as [pre H]. exists (Str.rev pre).
  unfold Str.rstrip. rewrite <- rev_app, <- H, rev_involutive. reflexivity.
Qed.

Lemma lstrip_no_separator (s : string) :
  has_separator s = false -> has_separator (Str.lstrip s) = false.
Proof.
  induction s as [|c s IH]; intros H; [exact H|]. simpl.
  destruct (Str.isspace c); [|exact H]. apply IH, (has_separator_tail c s H).
Qed.

Lemma strip_no_separator (s : string) :
  has_separator s = false -> has_separator (Str.strip s) = false.
Proof.
  intros H. unfold Str.strip.
  destruct (rstrip_prefix (Str.lstrip s)) as [tail Ht].
  apply (has_separator_prefix _ tail). rewrite <- Ht.
  apply lstrip_no_separator, H.
Qed.

Lemma lstrip_idempotent (s : string) :
  Str.lstrip (Str.lstrip s) = Str.lstrip s.
Proof.
  induction s as [|c s IH]; [reflexivity|]. simpl.
  destruct (Str.isspace c) eqn:E; [exact IH|]. simpl. rewrite E. reflexivity.
Qed.

Lemma rstrip_idempotent (s : string) :
  Str.rstrip (Str.rstrip s) = Str.rstrip s.
Proof.
  unfold Str.rstrip. rewrite rev_involutive, lstrip_idempotent. reflexivity.
Qed.

Lemma lstrip_snoc (s : string) (c : ascii) :
  Str.isspace c = false ->
  Str.lstrip (s ++ String c "") = (Str.lstrip s ++ String c "")%string.
Proof.
  intros Hc. induction s as [|a s IH].
  - simpl. rewrite Hc. reflexivity.
  - change (Str.lstrip (String a (s ++ String c "")%string)
            = (Str.lstrip (String a s) ++ String c "")%string).
    simpl. destruct (Str.isspace a); [exact IH|reflexivity].
Qed.

Lemma rstrip_cons (c : ascii) (s : string) :
  Str.isspace c = false ->
  Str.rstrip (String c s) = String c (Str.rstrip s).
Proof.
  intros Hc. unfold Str.rstrip.
  rewrite rev_cons, (lstrip_snoc _ c Hc), rev_app. reflexivity.
Qed.

Lemma lstrip_rstrip (s : string) :
  Str.lstrip s = s -> Str.lstrip (Str.rstrip s) = Str.rstrip s.
Proof.
  intros H. destruct s as [|c s]; [reflexivity|].
  simpl in H. destruct (Str.isspace c) eqn:E.
  - exfalso. destruct (lstrip_suffix s) as [pre Hpre].
    rewrite H in Hpre. apply (f_equal String.length) in Hpre.
    rewrite slength_app in Hpre. simpl in Hpre. lia.
  - rewrite (rstrip_cons c s E). simpl. rewrite E. reflexivity.
Qed.

(** [strip] leaves nothing more to strip *)
Lemma strip_idempotent (s : string) : Str.strip (Str.strip s) = Str.strip s.
Proof.
  unfold Str.strip at 1.
  assert (H : Str.lstrip (Str.strip s) = Str.strip s).
  { unfold Str.strip. apply lstrip_rstrip, lstrip_idempotent. }
  rewrite H. unfold Str.strip. apply rstrip_idempotent.
Qed.

(** X7. Whatever the title heuristic returns is a clean site name: when
    [extract_homepage_main] returns a string for a title, the title held a
    separator, and the string holds none, starts with no web protocol, does
    not end with "..." and has no white space left at either end. *)
Theorem homepage_from_title_is_clean (L : Library) (text homepage : string) :
  is_url text = false ->
  extract_homepage_main L text = Ok (Some homepage) ->
  has_separator text = true
  /\ has_separator homepage = false
  /\ is_url homepage = false
  /\ Str.endswith homepage "..." = false
  /\ Str.strip homepage = homepage.
Proof.
  intros Hurl H. rewrite (extract_homepage_main_title L text Hurl) in H.
  unfold extract_homepage_alt_form in H. cbv zeta in H.
  change (length (re_split text))
    with (length (re_split_scan 0 EmptyString text)) in H.
  rewrite re_split_single in H.
  set (segment := Str.strip (last_part (re_split text))) in H.
  destruct (Str.endswith segment "...") eqn:Edots; [discriminate|].
  destruct (is_url segment) eqn:Eurl; [discriminate|].
  destruct (has_separator text) eqn:Esep; [|discriminate].
  cbn [orb negb] in H. injection H as <-.
  split; [reflexivity|]. split; [|split; [exact Eurl|split; [exact Edots|]]].
  - apply strip_no_separator, last_part_no_separator.
  - apply strip_idempotent.
Qed.

Lemma homepage_from_title_is_clean_witness :
  has_separator "Top stories - BBC News | Home " = true
  /\ has_separator "Home" = false
  /\ is_url "Home" = false
  /\ Str.endswith "Home" "..." = false
  /\ Str.strip "Home" = "Home".
Proof.
  apply (homepage_from_title_is_clean sample_library
           "Top stories - BBC News | Home " "Home"); reflexivity.
Defined.

(** X8. For a string that starts with a web protocol the homepage returned
    always holds a dot, so it is never empty: the empty homepage can only
    come from a title. *)
Theorem homepage_from_url_has_dot (L : Library) (url homepage : string) :
  is_url url = true ->
  extract_homepage_main L url = Ok (Some homepage) ->
  Str.contains "." homepage = true /\ homepage <> "".
Proof.
  intros Hurl H. rewrite (extract_homepage_main_url L url Hurl) in H.
  destruct (urlparse L url); [|discriminate]. injection H as <-.
  assert (Hdot : Str.contains "." (registrable_domain L url) = true).
  { unfold registrable_domain. apply contains_app_r. reflexivity. }
  split; [exact Hdot|]. intros E. rewrite E in Hdot. discriminate.
Qed.

Lemma homepage_from_url_has_dot_witness :
  Str.contains "." "." = true /\ "."%string <> "".
Proof.
  apply (homepage_from_url_has_dot sample_library "http://" "."); reflexivity.
Defined.

(** ** Tokenisation *)

Lemma lower_char_idempotent (c : ascii) :
  Str.lower_char (Str.lower_char c) = Str.lower_char c.
Proof. destruct c as [[] [] [] [] [] [] [] []]; reflexivity. Qed.

Lemma isspace_lower_char (c : ascii) :
  Str.isspace (Str.lower_char c) = Str.isspace c.
Proof. destruct c as [[] [] [] [] [] [] [] []]; reflexivity. Qed.

Lemma lower_idempotent (s : string) : Str.lower (Str.lower s) = Str.lower s.
Proof.
  induction s as [|c s IH]; [reflexivity|]. simpl.
  rewrite lower_char_idempotent, IH. reflexivity.
Qed.

Lemma lower_lstrip (s : string) :
  Str.lstrip (Str.lower s) = Str.lower (Str.lstrip s).
Proof.
  induction s as [|c s IH]; [reflexivity|]. simpl.
  rewrite isspace_lower_char. destruct (Str.isspace c); [exact IH|reflexivity].
Qed.

Lemma lower_rev_onto (s acc : string) :
  Str.rev_onto (Str.lower s) (Str.lower acc) = Str.lower (Str.rev_onto s acc).
Proof.
  revert acc. induction s as [|c s IH]; intros acc; [reflexivity|]. simpl.
  exact (IH (String c acc)).
Qed.

Lemma lower_rev (s : string) : Str.rev (Str.lower s) = Str.lower (Str.rev s).
Proof. exact (lower_rev_onto s ""). Qed.

Lemma lower_strip (s : string) :
  Str.strip (Str.lower s) = Str.lower (Str.strip s).
Proof.
  unfold Str.strip, Str.rstrip.
  rewrite lower_lstrip, lower_rev, lower_lstrip, lower_rev. reflexivity.
Qed.

Lemma lower_empty (s : string) : Str.lower s = "" -> s = "".
Proof. destruct s; [reflexivity|discriminate]. Qed.

Lemma doc_tokens_clean (doc : Doc) :
  Forall (fun t => Str.lower t = t /\ Str.strip t <> "") (doc_tokens doc)
  /\ length (doc_tokens doc) <= length doc.
Proof.
  unfold doc_tokens. induction doc as [|token doc [IH Hlen]].
  - split; [constructor|reflexivity].
  - simpl. destruct (keep_token token) eqn:E; [|split; [exact IH|simpl; lia]].
    split; [|simpl; lia]. simpl. constructor; [|exact IH].
    split; [apply lower_idempotent|].
    rewrite lower_strip. intros Hs. apply lower_empty in Hs.
    unfold keep_token in E. rewrite Hs in E.
    rewrite andb_false_r in E. discriminate.
Qed.

(** X9. Every token [process_texts] returns is in lower case already and
    is more than white space, so in particular not empty; there are at most
    as many as the pipeline produced; and an exception of the pipeline is
    the exception of [process_texts]. *)
Theorem process_texts_tokens (texts : list string) (nlp : Language) :
  (forall docs,
     pipe nlp texts ["parser"; "ner"] = Ok docs ->
     exists tokens,
       process_texts texts nlp = Ok tokens
       /\ Forall (fun t => Str.lower t = t /\ Str.strip t <> "" /\ t <> "")
            tokens
       /\ length tokens <= token_count docs)
  /\ (forall e,
        pipe nlp texts ["parser"; "ner"] = Raise e ->
        process_texts texts nlp = Raise e).
Proof.
  split.
  - intros docs H. unfold process_texts. rewrite H. eexists.
    split; [reflexivity|]. unfold token_count. clear H.
    induction docs as [|doc docs [IHall IHlen]].
    + split; [constructor|reflexivity].
    + destruct (doc_tokens_clean doc) as [Hdoc Hlen]. simpl. split.
      * apply Forall_app. split; [|exact IHall].
        eapply Forall_impl; [exact Hdoc|].
        intros t [Hl Hs]. split; [exact Hl|]. split; [exact Hs|].
        intros ->. apply Hs. reflexivity.
      * rewrite length_app. lia.
  - intros e H. unfold process_texts. rewrite H. reflexivity.
Qed.

Lemma process_texts_tokens_witness :
  exists tokens,
    process_texts ["Cats"; "  "]
      {| pipe := fun texts _ => Ok (map (fun t => [sample_token t]) texts) |}
    = Ok tokens
    /\ Forall (fun t => Str.lower t = t /\ Str.strip t <> "" /\ t <> "") tokens
    /\ length tokens <= 2.
Proof.
  destruct (process_texts_tokens ["Cats"; "  "]
              {| pipe := fun texts _ =>
                           Ok (map (fun t => [sample_token t]) texts) |})
    as [H _].
  apply (H [[sample_token "Cats"]; [sample_token "  "]]). reflexivity.
Defined.

(** ** The counter *)

Lemma counter_get_add (key k : string) (d : CounterDict) :
  counter_get (counter_add key d) k
  = if String.eqb key k
    then Some (S (default 0 (counter_get d k)))
    else counter_get d k.
Proof.
  unfold counter_get. induction d as [|[k' n] d IH]; simpl.
  - destruct (String.eqb key k); reflexivity.
  - destruct (String.eqb_spec k' key) as [->|Hne]; simpl.
    + destruct (String.eqb key k); reflexivity.
    + destruct (String.eqb_spec k' k) as [->|Hne'].
      * destruct (String.eqb_spec key k) as [->|_]; [contradiction|reflexivity].
      * exact IH.
Qed.

Lemma counter_get_fold (l : list string) (d : CounterDict) (k : string) :
  counter_get (fold_left (fun d key => counter_add key d) l d) k
  = match counter_get d k with
    | Some n => Some (n + occurrences k l)
    | None => if (occurrences k l =? 0)%nat then None
              else Some (occurrences k l)
    end.
Proof.
  unfold occurrences. revert d. induction l as [|x l IH]; intros d.
  - simpl. destruct (counter_get d k); [rewrite Nat.add_0_r|]; reflexivity.
  - cbn [fold_left]. rewrite IH, counter_get_add. cbn [List.filter].
    rewrite (String.eqb_sym k x).
    destruct (String.eqb x k); [|reflexivity].
    cbn [length]. destruct (counter_get d k); simpl; f_equal; lia.
Qed.

Lemma occurrences_zero (k : string) (l : list string) :
  occurrences k l = 0 <-> ~ In k l.
Proof.
  unfold occurrences. induction l as [|x l IH]; simpl; [tauto|].
  destruct (String.eqb_spec k x) as [->|Hne]; simpl.
  - split; [discriminate|]. intros H. destruct H. left. reflexivity.
  - rewrite IH. split; [intros H [E|E]; [congruence|tauto]|tauto].
Qed.

Lemma counter_keys_add (key : string) (d : CounterDict) :
  NoDup (map fst d) -> NoDup (map fst (counter_add key d)).
Proof.
  induction d as [|[k n] d IH]; intros Hd; simpl.
  - repeat constructor. intros H. inversion H.
  - inversion Hd as [|? ? Hk Hd']; subst.
    destruct (String.eqb_spec k key) as [->|Hne]; simpl; [exact Hd|].
    constructor; [|exact (IH Hd')].
    intros Hin. apply Hk. clear IH Hd Hd' Hk.
    induction d as [|[k' n'] d IH]; simpl in *.
    + apply list_elem_of_In in Hin. destruct Hin as [E|[]]. congruence.
    + destruct (String.eqb_spec k' key) as [->|Hne']; [exact Hin|].
      simpl in Hin. apply list_elem_of_In in Hin. destruct Hin as [E|Hin].
      * apply list_elem_of_In. left. exact E.
      * apply list_elem_of_In. right. apply list_elem_of_In, IH.
        apply list_elem_of_In, Hin.
Qed.

Lemma counter_keys_fold (l : list string) (d : CounterDict) :
  NoDup (map fst d) ->
  NoDup (map fst (fold_left (fun d key => counter_add key d) l d)).
Proof.
  revert d. induction l as [|x l IH]; intros d Hd; [exact Hd|].
  apply IH, counter_keys_add, Hd.
Qed.

(** X10. The counter [main] builds from the tokens lists no token twice,
    maps every token that occurs to the number of its occurrences, and has
    no entry for a token that does not occur. *)
Theorem Counter_counts (tokens : list string) :
  NoDup (map fst (Counter tokens))
  /\ (forall token,
        In token tokens ->
        counter_get (Counter tokens) token = Some (occurrences token tokens)
        /\ 1 <= occurrences token tokens)
  /\ (forall token,
        ~ In token tokens -> counter_get (Counter tokens) token = None).
Proof.
  split; [apply counter_keys_fold; constructor|].
  split; intros token H; unfold Counter; rewrite counter_get_fold; simpl.
  - assert (Hn : occurrences token tokens <> 0)
      by (intros E; apply occurrences_zero in E; contradiction).
    apply Nat.eqb_neq in Hn as Hb. rewrite Hb. split; [reflexivity|lia].
  - apply occurrences_zero in H. rewrite H. reflexivity.
Qed.

Lemma Counter_counts_witness :
  counter_get (Counter ["cat"; "dog"; "cat"]) "cat" = Some 2
  /\ counter_get (Counter ["cat"; "dog"; "cat"]) "bird" = None.
Proof.
  destruct (Counter_counts ["cat"; "dog"; "cat"]) as (_ & Hin & Hout). split.
  - apply (Hin "cat"). left. reflexivity.
  - apply (Hout "bird"). intros [E|[E|[E|[]]]]; discriminate E.
Defined.

(** ** The failures of [main] *)

Lemma first_is_text_title_cons (m : string) (rest : list string) :
  first_is_text_title (m :: rest) = Ok (String.eqb m "Text Title").
Proof. reflexivity. Qed.

(** X12. [main] indexes the tuple of arrays although it never uses the two
    arrays it takes out: once the pipeline is loaded, it raises
    [IndexError], with every file untouched, when there are fewer than two
    arrays and the first mapping is 'Text Title', and when there are fewer
    than four arrays and the first mapping is anything else. *)
Theorem main_needs_arrays (L : Library) (nlp : Language)
    (arr_data : list (list cell)) (m : string) (rest : list string)
    (files : gmap string string) :
  spacy_load L "en_core_web_sm" = Ok nlp ->
  length arr_data < (if String.eqb m "Text Title" then 2 else 4) ->
  main L arr_data (m :: rest) files
  = (Raise (IndexError "index out of range"), files).
Proof.
  intros Hload Hlen. unfold main.
  rewrite bind_lift, Hload, first_is_text_title_cons.
  cbn [mbind result_bind]. rewrite !bind_lift.
  destruct (String.eqb m "Text Title").
  - destruct arr_data as [|a0 [|a1 arr_data]]; [reflexivity|reflexivity|].
    simpl in Hlen. lia.
  - destruct arr_data as [|a0 [|a1 [|a2 [|a3 arr_data]]]];
      try reflexivity. simpl in Hlen. lia.
Qed.

Lemma main_needs_arrays_witness :
  main sample_library [[]; []; []] ["Video URL"] sample_files
  = (Raise (IndexError "index out of range"), sample_files).
Proof.
  apply (main_needs_arrays sample_library
           {| pipe := fun texts _ =>
                        Ok (map (fun t => [sample_token t]) texts) |}
           [[]; []; []] "Video URL" [] sample_files).
  - reflexivity.
  - simpl. lia.
Defined.

Lemma bind_read_csv {B : Type} (L : Library) (path : string)
    (k : DataFrame -> M B) (files : gmap string string) :
  (read_csv L path ≫= k) files
  = match files !! path with
    | Some content =>
        match csv_parse L content with
        | Ok table => k table files
        | Raise e => (Raise e, files)
        end
    | None => (Raise (FileNotFoundError path), files)
    end.
Proof.
  unfold mbind, M_bind, read_csv. destruct (files !! path) as [content|];
    [|reflexivity].
  destruct (csv_parse L content); reflexivity.
Qed.

(** with the pipeline loaded and four arrays at hand, [main] gets to the
    reading of the cached file *)
Lemma main_until_read (L : Library) (nlp : Language)
    (arr_data : list (list cell)) (m : string) (rest : list string)
    (files : gmap string string) :
  spacy_load L "en_core_web_sm" = Ok nlp ->
  4 <= length arr_data ->
  main L arr_data (m :: rest) files
  = (read_csv L dash_ready_search_data
     ≫= main_from_table L nlp (String.eqb m "Text Title") arr_data) files.
Proof.
  intros Hload Hlen.
  destruct arr_data as [|a0 [|a1 [|a2 [|a3 arr_data]]]];
    try (simpl in Hlen; lia).
  unfold main.
  rewrite bind_lift, Hload, first_is_text_title_cons.
  cbn [mbind result_bind]. rewrite !bind_lift.
  destruct (String.eqb m "Text Title"); reflexivity.
Qed.

(** X13. Whatever the mappings say, [main] reads the cached search file:
    with the pipeline loaded and the arrays at hand, it raises
    [FileNotFoundError] when that file is missing, the error of the reader
    when the file does not parse, and [KeyError] when the table read has no
    'Text Title' column; in each case every file is left untouched. *)
Theorem main_reads_search_cache (L : Library) (nlp : Language)
    (arr_data : list (list cell)) (m : string) (rest : list string)
    (files : gmap string string) :
  spacy_load L "en_core_web_sm" = Ok nlp ->
  4 <= length arr_data ->
  (files !! dash_ready_search_data = None ->
   main L arr_data (m :: rest) files
   = (Raise (FileNotFoundError dash_ready_search_data), files))
  /\ (forall content e,
        files !! dash_ready_search_data = Some content ->
        csv_parse L content = Raise e ->
        main L arr_data (m :: rest) files = (Raise e, files))
  /\ (forall content table,
        files !! dash_ready_search_data = Some content ->
        csv_parse L content = Ok table ->
        has_column table "Text Title" = false ->
        main L arr_data (m :: rest) files
        = (Raise (KeyError "Text Title"), files)).
Proof.
  intros Hload Hlen.
  rewrite (main_until_read L nlp arr_data m rest files Hload Hlen).
  rewrite bind_read_csv. split; [|split].
  - intros ->. reflexivity.
  - intros content e -> ->. reflexivity.
  - intros content table -> -> Hcol. unfold main_from_table.
    rewrite bind_lift. unfold extract_search_queries.
    rewrite (getitem_missing _ _ Hcol). reflexivity.
Qed.

Lemma main_reads_search_cache_witness :
  main sample_library [[]; []; []; []] ["Video URL"] ∅
  = (Raise (FileNotFoundError dash_ready_search_data), ∅).
Proof.
  destruct (main_reads_search_cache sample_library
              {| pipe := fun texts _ =>
                           Ok (map (fun t => [sample_token t]) texts) |}
              [[]; []; []; []] "Video URL" [] ∅ eq_refl) as [H _].
  - simpl. lia.
  - apply H. reflexivity.
Defined.



(** ** The orchestrator *)

Ltac munger_run :=
  unfold Munger.main, Munger.bind, Munger.call, Munger.print,
    Munger.choose_data_source, Munger.load_local, Munger.ret, Munger.fail;
  cbn [list_getitem lookup list_lookup fst snd app].

Ltac munger_case :=
  match goal with
  | |- context [Munger.parse_and_process ?C ?d ?f ?m ?w] =>
      destruct (Munger.parse_and_process C d f m w) as [[?data|?e] ?w] eqn:?E
  | |- context [Munger.path_exists ?C ?p ?w] =>
      destruct (Munger.path_exists C p w) eqn:?E
  | |- context [Munger.mkdir ?C ?p ?w] =>
      destruct (Munger.mkdir C p w) as [[[]|?e] ?w] eqn:?E
  | |- context [Munger.save_to_csv ?C ?d ?p ?m ?w] =>
      destruct (Munger.save_to_csv C d p m w) as [[[]|?e] ?w] eqn:?E
  | |- context [Munger.trim_date ?C ?d ?m ?w] =>
      destruct (Munger.trim_date C d m w) as [[?data|?e] ?w] eqn:?E
  | |- context [Munger.imputer ?C ?d ?m ?w] =>
      destruct (Munger.imputer C d m w) as [[?data|?e] ?w] eqn:?E
  end;
  cbn [fst snd app].

Ltac munger_known_source :=
  munger_run;
  try change (String.eqb "Text Title" "Text Title") with true;
  try change (String.eqb "Video URL" "Text Title") with false;
  try change (String.eqb "Video URL" "Video URL") with true;
  cbn [fst snd app].

(** Called with an empty list of mappings, the orchestrator raises
    [IndexError] at its first line: no imported function has been called,
    nothing has been created or printed, and the world is as it was. *)
Theorem munger_main_empty_mappings {W : Type} (C : Munger.Collaborators W)
    (directory input_file_name : string) (st : W * list Munger.Event) :
  Munger.main C directory input_file_name [] st
  = (Munger.Failed (Munger.Raised (IndexError "index out of range")), st).
Proof. reflexivity. Qed.

(** X15. When the first mapping is neither 'Text Title' nor 'Video URL',
    [data_source] is never assigned: the orchestrator still calls
    [parse_and_process] first and may create the output directory, but it
    never returns and never calls [save_to_csv]; and if the parsing and the
    directory step go through, the run ends in the [UnboundLocalError] of
    [data_source]. *)
Theorem munger_main_unknown_source {W : Type} (C : Munger.Collaborators W)
    (directory input_file_name m : string) (rest : list string) (w : W) :
  String.eqb m "Text Title" = false ->
  String.eqb m "Video URL" = false ->
  let run := Munger.main C directory input_file_name (m :: rest) (w, []) in
  (exists f, fst run = Munger.Failed f)
  /\ Munger.saved_paths (snd (snd run)) = []
  /\ head (snd (snd run))
     = Some (Munger.EParse directory input_file_name (m :: rest))
  /\ (forall data w1,
        Munger.parse_and_process C directory input_file_name (m :: rest) w
        = (Ok data, w1) ->
        Munger.path_exists C (directory ++ "/output") w1 = true
        \/ (exists w2, Munger.mkdir C (directory ++ "/output") w1 = (Ok tt, w2)) ->
        fst run = Munger.Failed (Munger.UnboundLocalError "data_source")).
Proof.
  intros Htt Hvu run. subst run. munger_run. rewrite Htt, Hvu.
  cbn [fst snd app].
  repeat munger_case;
    (split; [eexists; reflexivity|]); (split; [reflexivity|]);
    (split; [reflexivity|]); intros data' w1' Hp Hdir;
    try reflexivity; try discriminate Hp;
    injection Hp as <- <-; destruct Hdir as [Hex|[w2 Hmk]]; congruence.
Qed.

Lemma munger_main_unknown_source_witness :
  fst (Munger.main Munger.sample_collaborators "personal_data" "history.json"
         ["Title"] ([], []))
  = Munger.Failed (Munger.UnboundLocalError "data_source").
Proof.
  destruct (munger_main_unknown_source Munger.sample_collaborators
              "personal_data" "history.json" "Title" [] [] eq_refl eq_refl)
    as (_ & _ & _ & H).
  apply (H [[CStr "Searched for cats"]] []); [reflexivity|].
  right. eexists. reflexivity.
Defined.

Lemma sapp_inj_l (p s t : string) : (p ++ s)%string = (p ++ t)%string -> s = t.
Proof.
  induction p as [|c p IH]; intros H; [exact H|].
  change (String c (p ++ s)%string = String c (p ++ t)%string) in H.
  injection H as H. exact (IH H).
Qed.

Lemma startswith_common_prefix (p s q : string) :
  Str.startswith (p ++ s) (p ++ q) = Str.startswith s q.
Proof.
  induction p as [|c p IH]; [reflexivity|].
  change (Ascii.eqb c c && Str.startswith (p ++ s) (p ++ q)
          = Str.startswith s q).
  rewrite Ascii.eqb_refl. exact IH.
Qed.

(** the three paths of a run differ from each other and from the path the
    first message names, and all lie in the output directory *)
Lemma munger_paths (directory ds : string) :
  ds = "search" \/ ds = "watch" ->
  let paths := [Munger.extracted_path directory ds;
                Munger.dash_ready_path directory ds;
                Munger.imputed_path directory ds] in
  NoDup paths
  /\ ~ In (Munger.announced_extracted_path directory ds) paths
  /\ Forall (fun p => Str.startswith p (directory ++ "/output/") = true) paths.
Proof.
  intros Hds paths. subst paths.
  unfold Munger.extracted_path, Munger.dash_ready_path, Munger.imputed_path,
    Munger.announced_extracted_path.
  split; [|split].
  - repeat constructor; rewrite ?list_elem_of_In; cbn [In];
      intros H; repeat destruct H as [H|H]; try exact H;
      apply sapp_inj_l in H; destruct Hds as [-> | ->]; discriminate H.
  - cbn [In]. intros H; repeat destruct H as [H|H]; try exact H;
      apply sapp_inj_l in H; destruct Hds as [-> | ->]; discriminate H.
  - repeat constructor; rewrite startswith_common_prefix; reflexivity.
Qed.

(** X16. For a search or a watch history, whatever the imported functions
    do and however the run ends, the orchestrator hands [save_to_csv] the
    extracted, the dash-ready and the imputed path of the output directory,
    in this order and as far as the run gets, and all three when it ends
    well; the three paths differ from each other, so no save overwrites an
    earlier one, and none of them is the path the first message names. *)
Theorem munger_main_saved_paths {W : Type} (C : Munger.Collaborators W)
    (directory input_file_name m ds : string) (rest : list string) (w : W) :
  (m = "Text Title" /\ ds = "search") \/ (m = "Video URL" /\ ds = "watch") ->
  let run := Munger.main C directory input_file_name (m :: rest) (w, []) in
  let paths := [Munger.extracted_path directory ds;
                Munger.dash_ready_path directory ds;
                Munger.imputed_path directory ds] in
  Munger.saved_paths (snd (snd run)) `prefix_of` paths
  /\ (fst run = Munger.Done tt -> Munger.saved_paths (snd (snd run)) = paths)
  /\ NoDup paths
  /\ ~ In (Munger.announced_extracted_path directory ds) paths
  /\ Forall (fun p => Str.startswith p (directory ++ "/output/") = true) paths.
Proof.
  intros Hm run paths.
  assert (Hds : ds = "search" \/ ds = "watch") by (destruct Hm as [[_ ->]|[_ ->]]; auto).
  split; [|split; [|exact (munger_paths directory ds Hds)]].
  - subst run paths. destruct Hm as [[-> ->]|[-> ->]]; munger_known_source;
      repeat munger_case; cbn [Munger.saved_paths];
      eexists; reflexivity.
  - subst run paths. destruct Hm as [[-> ->]|[-> ->]]; munger_known_source;
      repeat munger_case; cbn [Munger.saved_paths];
      intros H; solve [reflexivity | discriminate H].
Qed.

Lemma munger_main_saved_paths_witness :
  Munger.saved_paths
    (snd (snd (Munger.main Munger.sample_collaborators "personal_data"
                 "history.json" ["Text Title"] ([], []))))
  = ["personal_data/output/extracted_search_history.csv";
     "personal_data/output/dash_ready_search_data.csv";
     "personal_data/output/imputed_search_data.csv"].
Proof.
  destruct (munger_main_saved_paths Munger.sample_collaborators "personal_data"
              "history.json" "Text Title" "search" [] []
              (or_introl (conj eq_refl eq_refl))) as (_ & H & _).
  apply H. reflexivity.
Defined.

(** X17. The orchestrator calls [mkdir] at most once in a run, and on no
    path other than the output directory of the directory it is given; once
    the parsing has gone through, it makes the call exactly when
    [Path.exists] reports that path missing. The statement is about the
    calls made: what a call creates, with [parents=True], and whether it
    succeeds is left to [mkdir]. *)
Theorem munger_main_directory {W : Type} (C : Munger.Collaborators W)
    (directory input_file_name : string) (mappings : list string) (w : W) :
  let run := Munger.main C directory input_file_name mappings (w, []) in
  let out_dir := (directory ++ "/output")%string in
  (Munger.made_dirs (snd (snd run)) = []
   \/ Munger.made_dirs (snd (snd run)) = [out_dir])
  /\ (forall data w1,
        mappings <> [] ->
        Munger.parse_and_process C directory input_file_name mappings w
        = (Ok data, w1) ->
        Munger.made_dirs (snd (snd run))
        = if Munger.path_exists C out_dir w1 then [] else [out_dir]).
Proof.
  intros run out_dir. subst run out_dir.
  destruct mappings as [|m rest].
  - split; [left; reflexivity|]. intros ? ? H. destruct H. reflexivity.
  - munger_run.
    destruct (String.eqb m "Text Title"); [|destruct (String.eqb m "Video URL")];
      cbn [fst snd app]; repeat munger_case; cbn [Munger.made_dirs];
      (split; [auto|]); intros data' w1' _ Hp;
      try discriminate Hp; injection Hp as <- <-;
      match goal with
      | H : Munger.path_exists _ _ _ = _ |- _ => rewrite H
      end; reflexivity.
Qed.

Lemma munger_main_directory_witness :
  Munger.made_dirs
    (snd (snd (Munger.main Munger.sample_collaborators "personal_data"
                 "history.json" ["Video URL"] (["personal_data/output"], []))))
  = [].
Proof.
  destruct (munger_main_directory Munger.sample_collaborators "personal_data"
              "history.json" ["Video URL"] ["personal_data/output"])
    as [_ H].
  apply (H [[CStr "Searched for cats"]] ["personal_data/output"]);
    [discriminate|reflexivity].
Defined.

(** ** Pages of one host *)

Lemma before_stop (c : ascii) (host rest : string) :
  char_free c host -> Str.before c (host ++ String c rest) = host.
Proof.
  intros H. induction host as [|x host IH].
  - simpl. rewrite Ascii.eqb_refl. reflexivity.
  - destruct (char_free_cons c x host H) as [Hx Hh].
    change (Str.before c (String x (host ++ String c rest)%string)
            = String x host).
    simpl. rewrite (Ascii.eqb_sym x c), Hx. f_equal. exact (IH Hh).
Qed.

Lemma lenient_netloc_ignores_path (scheme host path : string) :
  scheme = "http://" \/ scheme = "https://" ->
  char_free "/" host ->
  lenient_netloc (scheme ++ host ++ "/" ++ path)
  = lenient_netloc (scheme ++ host ++ "/").
Proof.
  intros Hs Hh. unfold lenient_netloc.
  assert (E : forall rest,
             Str.before "/" (schemeless_url (scheme ++ host ++ "/" ++ rest))
             = host).
  { intros rest.
    assert (Es : schemeless_url (scheme ++ host ++ "/" ++ rest)
                 = (host ++ "/" ++ rest)%string)
      by (destruct Hs as [-> | ->]; reflexivity).
    rewrite Es. apply (before_stop "/" host rest Hh). }
  assert (E0 : Str.before "/" (schemeless_url (scheme ++ host ++ "/")) = host)
    by exact (E "").
  rewrite (E path), E0. reflexivity.
Qed.

(** X19. For addresses without square brackets the homepage depends only
    on what stands between the protocol and the first slash: two pages of
    one host get the same homepage, whatever their paths. *)
Theorem homepage_ignores_path (L : Library) (scheme host path1 path2 : string) :
  scheme = "http://" \/ scheme = "https://" ->
  char_free "/" host ->
  bracket_free host -> bracket_free path1 -> bracket_free path2 ->
  extract_homepage_main L (scheme ++ host ++ "/" ++ path1)
  = extract_homepage_main L (scheme ++ host ++ "/" ++ path2).
Proof.
  intros Hs Hh _ _ _.
  assert (Hurl : forall rest, is_url (scheme ++ rest) = true).
  { intros rest. unfold is_url.
    destruct Hs as [-> | ->]; rewrite startswith_refl_app;
      [reflexivity|apply orb_true_r]. }
  set (nl := Str.before_any (char_in "/?#") (Str.remove unsafe_url_byte host)).
  assert (Hpage : forall path,
             extract_homepage_main L (scheme ++ host ++ "/" ++ path)
             = (_ ← check_brackets L nl;
                _ ← checknetloc L nl;
                Ok (Some (registrable_domain L (scheme ++ host ++ "/"))))).
  { intros path.
    rewrite (extract_homepage_main_url L _ (Hurl _)).
    rewrite (urlparse_http L scheme _ Hs). cbv zeta.
    rewrite (netloc_after_host host ("/" ++ path))
      by (right; exists "/"%char, path; split; reflexivity).
    fold nl. unfold registrable_domain, tldextract_extract.
    rewrite (lenient_netloc_ignores_path scheme host path Hs Hh).
    destruct (check_brackets L nl) as [[]|e]; [|reflexivity].
    destruct (checknetloc L nl) as [[]|e]; reflexivity. }
  rewrite (Hpage path1), (Hpage path2). reflexivity.
Qed.

Lemma homepage_ignores_path_witness :
  extract_homepage_main sample_library "https://www.example.co.uk/page"
  = extract_homepage_main sample_library "https://www.example.co.uk/a/b?c#d".
Proof.
  apply (homepage_ignores_path sample_library "https://" "www.example.co.uk"
           "page" "a/b?c#d");
    [right; reflexivity|reflexivity|split; reflexivity..].
Defined.
